(** * LabelMint backup monitoring: RPO / replication lag / health score

    Shallow embedding of the decision logic of
    - [src/lambda/rto-rpo-monitor.py]   (the RTO/RPO monitor Lambda), and
    - [src/scripts/backup-testing-framework.py] (the test orchestrator).

    Numbers.  The Python code computes with floats.  Durations come from
    [timedelta.total_seconds() / 60], i.e. from an integer number of
    microseconds, so every finite duration is modelled as an exact rational
    number of minutes ([Q]); the only non-finite float the monitor ever
    builds is [float('inf')], modelled by the constructor [Inf].  Rounding of
    the binary64 operations is not modelled; at the concrete inputs used
    below the comparisons come out the same in binary64, and the values are
    exact unless the comment says otherwise.  The range of a float is
    modelled where the code converts an unbounded [int]: the configured
    threshold is an [int], and dividing a float by it raises OverflowError
    when it is too large to convert ([int_too_large]).

    Time.  A timezone-aware [datetime] is an integer count of microseconds
    since the epoch, a [timedelta] an integer count of microseconds.  The
    clock read [datetime.now(timezone.utc)] is an explicit argument [now].

    Exceptions.  Python exceptions are explicit: a computation of type
    [comp A] either returns ([Ok]) or raises ([Raise]); [try_except] is the
    [try: ... except Exception as e: ...] block. *)

From Stdlib Require Import ZArith QArith Qminmax List String Bool Lia Lqa.
Import ListNotations.
Local Open Scope string_scope.
Local Open Scope list_scope.
Local Open Scope Z_scope.

(** ** Exceptions *)

Inductive exn : Type :=
| ClientError (msg : string)      (* boto3 call failed *)
| KeyError (key : string)         (* d[key] with key absent *)
| IndexError
| TypeError                       (* e.g. naive/aware datetime subtraction *)
| ZeroDivisionError
| OverflowError.                  (* an int too large for a float or a timedelta *)

Inductive comp (A : Type) : Type :=
| Ok (a : A)
| Raise (e : exn).
Arguments Ok {A} a.
Arguments Raise {A} e.

Definition bind {A B} (m : comp A) (k : A -> comp B) : comp B :=
  match m with
  | Ok a => k a
  | Raise e => Raise e
  end.

Notation "x <- m ;; k" := (bind m (fun x => k))
  (at level 61, m at next level, right associativity).

(** [try: body  except Exception as e: handler e] *)
Definition try_except {A} (body : comp A) (handler : exn -> comp A) : comp A :=
  match body with
  | Ok a => Ok a
  | Raise e => handler e
  end.

(** [d[key]] on a dict whose entry may be absent (or unusable). *)
Definition getitem {A} (key : string) (entry : option A) : comp A :=
  match entry with
  | Some a => Ok a
  | None => Raise (KeyError key)
  end.

Definition returns {A} (m : comp A) : Prop := exists a, m = Ok a.

(** ** Durations in minutes *)

Inductive minutes : Type :=
| Fin (q : Q)      (* a finite float *)
| Inf.             (* float('inf') *)

(** [x == float('inf')] *)
Definition is_inf (x : minutes) : bool :=
  match x with Inf => true | Fin _ => false end.

Definition datetime := Z.     (* microseconds since the epoch, UTC *)
Definition timedelta := Z.    (* microseconds *)
Bind Scope Z_scope with datetime timedelta.

(** [td.total_seconds() / 60] *)
Definition total_minutes (td : timedelta) : Q := inject_Z td / 60000000.

(** The largest finite binary64 value, [2^1024 - 2^971]. *)
Definition float_max : Z := Eval vm_compute in (2 ^ 1024 - 2 ^ 971).

(** Converting an [int] to a float (as [float / int] does with its right
    operand) rounds to nearest; from [2^1024 - 2^970] on, in magnitude, the
    result would be [2^1024] and Python raises OverflowError instead. *)
Definition float_overflow_bound : Z := Eval vm_compute in (2 ^ 1024 - 2 ^ 970).

Definition int_too_large (n : Z) : bool := float_overflow_bound <=? Z.abs n.

(** Python's two-argument [max(a, b)]: [b] only when it is strictly greater. *)
Definition pymax (a b : Q) : Q := if Qle_bool b a then a else b.

(** [x > c] for a float that may be [inf] *)
Definition gt_minutes (x : minutes) (c : Q) : bool :=
  match x with
  | Inf => true
  | Fin q => negb (Qle_bool q c)
  end.

(** ** AWS responses (rto-rpo-monitor.py) *)

(** One element of [response['RecoveryPoints']].  A key that is absent from
    the dict, or whose value cannot be used as the code uses it, is [None]. *)
Record recovery_point : Type := {
  Status : option string;
  CreationDate : option datetime
}.

(** [backup_client.list_recovery_points_by_backup_vault(...)] *)
Record backup_response : Type := {
  RecoveryPoints : option (list recovery_point)
}.

(** One element of [response['Snapshots']]. *)
Record snapshot : Type := {
  SnapshotStatus : option string;
  SnapshotCreateTime : option datetime
}.

(** [elasticache_client.describe_snapshots(...)] *)
Record snapshots_response : Type := {
  Snapshots : option (list snapshot)
}.

(** ** monitor_postgresql_rpo (lines 80-118) *)

(** The loop of lines 97-101: the first recovery point whose status is
    ['COMPLETED']; reading [rp['Status']] may raise. *)
Fixpoint find_completed (rps : list recovery_point) : comp (option recovery_point) :=
  match rps with
  | [] => Ok None
  | rp :: rest =>
      st <- getitem "Status" (Status rp) ;;
      if String.eqb st "COMPLETED" then Ok (Some rp) else find_completed rest
  end.

Definition monitor_postgresql_rpo_body
  (call : comp backup_response) (now : datetime) : comp minutes :=
  response <- call ;;
  rps <- getitem "RecoveryPoints" (RecoveryPoints response) ;;
  match rps with
  | [] => Ok Inf
  | _ =>
      latest_backup <- find_completed rps ;;
      match latest_backup with
      | None => Ok Inf
      | Some rp =>
          backup_time <- getitem "CreationDate" (CreationDate rp) ;;
          Ok (Fin (total_minutes (now - backup_time)))
      end
  end.

Definition monitor_postgresql_rpo
  (call : comp backup_response) (now : datetime) : comp minutes :=
  try_except (monitor_postgresql_rpo_body call now) (fun _ => Ok Inf).

(** ** monitor_redis_rpo (lines 120-158) *)

(** The loop of lines 137-141 with its accumulator [latest_snapshot]. *)
Fixpoint find_latest_available (snaps : list snapshot) (latest_snapshot : option snapshot)
  : comp (option snapshot) :=
  match snaps with
  | [] => Ok latest_snapshot
  | s :: rest =>
      st <- getitem "SnapshotStatus" (SnapshotStatus s) ;;
      if String.eqb st "available" then
        match latest_snapshot with
        | None => find_latest_available rest (Some s)
        | Some l =>
            t <- getitem "SnapshotCreateTime" (SnapshotCreateTime s) ;;
            tl <- getitem "SnapshotCreateTime" (SnapshotCreateTime l) ;;
            if tl <? t then find_latest_available rest (Some s)
            else find_latest_available rest latest_snapshot
        end
      else find_latest_available rest latest_snapshot
  end.

Definition monitor_redis_rpo_body
  (call : comp snapshots_response) (now : datetime) : comp minutes :=
  response <- call ;;
  snaps <- getitem "Snapshots" (Snapshots response) ;;
  match snaps with
  | [] => Ok Inf
  | _ =>
      latest_snapshot <- find_latest_available snaps None ;;
      match latest_snapshot with
      | None => Ok Inf
      | Some s =>
          snapshot_time <- getitem "SnapshotCreateTime" (SnapshotCreateTime s) ;;
          Ok (Fin (total_minutes (now - snapshot_time)))
      end
  end.

Definition monitor_redis_rpo
  (call : comp snapshots_response) (now : datetime) : comp minutes :=
  try_except (monitor_redis_rpo_body call now) (fun _ => Ok Inf).

(** ** monitor_cross_region_replication (lines 160-204) *)

(** The dict returned by the function; the two time keys are present only
    on the success path. *)
Record replication_status : Type := {
  status : string;
  lag_minutes : minutes;
  primary_backup_time : option datetime;
  dr_backup_time : option datetime
}.

Definition failure_status (s : string) : replication_status :=
  {| status := s; lag_minutes := Inf;
     primary_backup_time := None; dr_backup_time := None |}.

(** [l[0]] *)
Definition head_item {A} (l : list A) : comp A :=
  match l with
  | [] => Raise IndexError
  | a :: _ => Ok a
  end.

Definition monitor_cross_region_replication_body
  (primary_call dr_call : comp backup_response) : comp replication_status :=
  primary_response <- primary_call ;;
  dr_response <- dr_call ;;
  primary_rps <- getitem "RecoveryPoints" (RecoveryPoints primary_response) ;;
  match primary_rps with
  | [] => Ok (failure_status "NO_PRIMARY_BACKUPS")
  | _ =>
      dr_rps <- getitem "RecoveryPoints" (RecoveryPoints dr_response) ;;
      match dr_rps with
      | [] => Ok (failure_status "NO_DR_BACKUPS")
      | _ =>
          p0 <- head_item primary_rps ;;
          primary_time <- getitem "CreationDate" (CreationDate p0) ;;
          d0 <- head_item dr_rps ;;
          dr_time <- getitem "CreationDate" (CreationDate d0) ;;
          let replication_lag := total_minutes (dr_time - primary_time) in
          let st := if negb (Qle_bool 60 replication_lag) then "HEALTHY" else "LAGGING" in
          Ok {| status := st;
                lag_minutes := Fin replication_lag;
                primary_backup_time := Some primary_time;
                dr_backup_time := Some dr_time |}
      end
  end.

Definition monitor_cross_region_replication
  (primary_call dr_call : comp backup_response) : comp replication_status :=
  try_except (monitor_cross_region_replication_body primary_call dr_call)
             (fun _ => Ok (failure_status "ERROR")).

(** ** calculate_backup_health_score (lines 206-233) *)

(** [max(0, 100 - (rpo / rpo_threshold) * 100) if rpo != float('inf') else 0].
    The threshold is the [int] read from the environment: the division
    first converts it to a float, which raises OverflowError when it is too
    large, and then raises ZeroDivisionError when it is 0. *)
Definition rpo_score (rpo : minutes) (rpo_threshold : Z) : comp Q :=
  match rpo with
  | Fin q =>
      if int_too_large rpo_threshold then Raise OverflowError
      else if rpo_threshold =? 0 then Raise ZeroDivisionError
      else Ok (pymax 0 (100 - (q / inject_Z rpo_threshold) * 100))
  | Inf => Ok 0%Q
  end.

(** [max(0, 100 - (lag / 60) * 100)]; for [lag = inf] the float expression is
    [max(0, -inf)], which is [0]. *)
Definition lagging_score (lag : minutes) : Q :=
  match lag with
  | Fin q => pymax 0 (100 - (q / 60) * 100)
  | Inf => 0
  end.

(** Lines 216-222. *)
Definition replication_score (s : replication_status) : Q :=
  if String.eqb (status s) "HEALTHY" then 100
  else if String.eqb (status s) "LAGGING" then lagging_score (lag_minutes s)
  else 0.

Definition calculate_backup_health_score_body
  (postgres_rpo redis_rpo : minutes) (s : replication_status) (rpo_threshold : Z)
  : comp Q :=
  postgres_score <- rpo_score postgres_rpo rpo_threshold ;;
  redis_score <- rpo_score redis_rpo rpo_threshold ;;
  let replication_score := replication_score s in
  Ok ((postgres_score * 0.4) + (redis_score * 0.3) + (replication_score * 0.3))%Q.

Definition calculate_backup_health_score
  (postgres_rpo redis_rpo : minutes) (s : replication_status) (rpo_threshold : Z)
  : comp Q :=
  try_except
    (calculate_backup_health_score_body postgres_rpo redis_rpo s rpo_threshold)
    (fun _ => Ok 0%Q).

(** ** publish_metrics_to_cloudwatch (lines 235-317) *)

(** One element of [MetricData]: name and value (unit, timestamp and
    dimensions carry no decision). *)
Record metric : Type := {
  MetricName : string;
  Value : minutes
}.

(** The dict lookup of lines 293-299. *)
Definition replication_status_numeric (st : string) : Q :=
  if String.eqb st "HEALTHY" then 1
  else if String.eqb st "LAGGING" then 0.5
  else 0.

(** The list [metrics] handed to [put_metric_data]. *)
Definition publish_metrics_to_cloudwatch
  (postgres_rpo redis_rpo : minutes) (s : replication_status) (health_score : Q)
  : list metric :=
  let metrics := [] in
  let metrics :=
    if negb (is_inf postgres_rpo)
    then metrics ++ [ {| MetricName := "PostgreSQLRPO"; Value := postgres_rpo |} ]
    else metrics in
  let metrics :=
    if negb (is_inf redis_rpo)
    then metrics ++ [ {| MetricName := "RedisRPO"; Value := redis_rpo |} ]
    else metrics in
  let metrics :=
    if negb (is_inf (lag_minutes s))
    then metrics ++ [ {| MetricName := "ReplicationLag"; Value := lag_minutes s |} ]
    else metrics in
  let metrics :=
    metrics ++ [ {| MetricName := "BackupHealthScore"; Value := Fin health_score |} ] in
  metrics ++ [ {| MetricName := "ReplicationStatus";
                  Value := Fin (replication_status_numeric (status s)) |} ].

(** ** send_alerts_if_needed (lines 319-379) *)

(** The entries of [alerts], by the condition that appended them; the
    arguments are the values interpolated into the message. *)
Inductive alert : Type :=
| PostgresRpoExceeded (rpo : minutes) (threshold : Z)
| RedisRpoExceeded (rpo : minutes) (threshold : Z)
| ReplicationIssue (st : string)
| HighReplicationLag (lag : minutes)
| LowHealthScore (score : Q).

Definition redis_rpo_threshold : Z := 24 * 60.

Definition send_alerts_if_needed
  (postgres_rpo redis_rpo : minutes) (s : replication_status)
  (rpo_threshold : Z) (health_score : Q) : list alert :=
  let alerts := [] in
  let alerts :=
    if gt_minutes postgres_rpo (inject_Z rpo_threshold)
    then alerts ++ [PostgresRpoExceeded postgres_rpo rpo_threshold]
    else alerts in
  let alerts :=
    if gt_minutes redis_rpo (inject_Z redis_rpo_threshold)
    then alerts ++ [RedisRpoExceeded redis_rpo redis_rpo_threshold]
    else alerts in
  let alerts :=
    if existsb (String.eqb (status s)) ["NO_PRIMARY_BACKUPS"; "NO_DR_BACKUPS"; "ERROR"]
    then alerts ++ [ReplicationIssue (status s)]
    else if String.eqb (status s) "LAGGING" && gt_minutes (lag_minutes s) 120
    then alerts ++ [HighReplicationLag (lag_minutes s)]
    else alerts in
  if negb (Qle_bool 80 health_score)
  then alerts ++ [LowHealthScore health_score]
  else alerts.

Definition is_postgres_alert (a : alert) : bool :=
  match a with PostgresRpoExceeded _ _ => true | _ => false end.

Definition is_redis_alert (a : alert) : bool :=
  match a with RedisRpoExceeded _ _ => true | _ => false end.

(** ** backup-testing-framework.py: data *)

Inductive TestResult : Type := PASSED | FAILED | SKIPPED | TIMEOUT.

Inductive BackupType : Type := POSTGRESQL | REDIS | S3 | APPLICATION.

Definition TestResult_eqb (a b : TestResult) : bool :=
  match a, b with
  | PASSED, PASSED | FAILED, FAILED | SKIPPED, SKIPPED | TIMEOUT, TIMEOUT => true
  | _, _ => false
  end.

(** [TestResult.value] *)
Definition TestResult_value (r : TestResult) : string :=
  match r with
  | PASSED => "PASSED" | FAILED => "FAILED"
  | SKIPPED => "SKIPPED" | TIMEOUT => "TIMEOUT"
  end.

(** The [details] dict: the named sub-check outcomes, or [{'error': str(e)}]. *)
Inductive test_details : Type :=
| Checks (l : list (string * bool))
| ErrorDetail (msg : string).

Record TestMetrics : Type := {
  test_name : string;
  start_time : datetime;
  end_time : datetime;
  result : TestResult;
  details : test_details;
  recovery_point_objective : option timedelta;
  recovery_time_objective : option timedelta
}.

(** [timedelta.max]: 999999999 days, 23:59:59.999999, in microseconds. *)
Definition timedelta_max : timedelta :=
  (999999999 * 86400 + 86399) * 1000000 + 999999.

(** Truth value of an [Optional[timedelta]]: [None] and the zero duration
    are false. *)
Definition truthy (o : option timedelta) : bool :=
  match o with
  | Some d => negb (d =? 0)
  | None => false
  end.

Definition str_exn (e : exn) : string :=
  match e with
  | ClientError msg => msg
  | KeyError key => key
  | IndexError => "list index out of range"
  | TypeError => "unsupported operand"
  | ZeroDivisionError => "division by zero"
  | OverflowError => "int too large to convert to float"
  end.

(** ** _calculate_postgresql_rpo (lines 971-982) *)

(** [recovery_point_details] is what
    [self._get_latest_postgresql_recovery_point_details()] does: it returns
    the recovery point dict or raises (no recovery point, client error). *)
Definition _calculate_postgresql_rpo
  (recovery_point_details : comp recovery_point) (now : datetime) : comp timedelta :=
  try_except
    (recovery_point <- recovery_point_details ;;
     backup_time <- getitem "CreationDate" (CreationDate recovery_point) ;;
     Ok (now - backup_time))
    (fun _ => Ok timedelta_max).

(** ** test_postgresql_backup (lines 102-157) *)

(** The four sub-checks catch their own exceptions and return a [bool];
    the clock is read at [start_time], for the RPO, for the RTO and at
    [end_time]. *)
Definition test_postgresql_backup
  (backup_check_result pitr_result cross_region_result integrity_result : bool)
  (recovery_point_details : comp recovery_point)
  (start_time rpo_now rto_now end_time : datetime) : comp TestMetrics :=
  try_except
    (let details := Checks [("backup_check", backup_check_result);
                            ("pitr_test", pitr_result);
                            ("cross_region_replication", cross_region_result);
                            ("integrity_check", integrity_result)] in
     rpo <- _calculate_postgresql_rpo recovery_point_details rpo_now ;;
     let rto := rto_now - start_time in
     let result :=
       if forallb (fun b => b) [backup_check_result; pitr_result;
                                cross_region_result; integrity_result]
       then PASSED else FAILED in
     Ok {| test_name := "postgresql_backup_recovery";
           start_time := start_time; end_time := end_time;
           result := result; details := details;
           recovery_point_objective := Some rpo;
           recovery_time_objective := Some rto |})
    (fun e =>
       Ok {| test_name := "postgresql_backup_recovery";
             start_time := start_time; end_time := end_time;
             result := FAILED; details := ErrorDetail (str_exn e);
             recovery_point_objective := None;
             recovery_time_objective := None |}).

(** ** run_all_tests (lines 1045-1092) *)

(** Keys of the [results] dict: a [BackupType] member or the string
    ['disaster_recovery']. *)
Inductive test_key : Type :=
| KBackup (b : BackupType)
| KStr (s : string).

Definition BackupType_eqb (a b : BackupType) : bool :=
  match a, b with
  | POSTGRESQL, POSTGRESQL | REDIS, REDIS | S3, S3 | APPLICATION, APPLICATION => true
  | _, _ => false
  end.

Definition test_key_eqb (a b : test_key) : bool :=
  match a, b with
  | KBackup x, KBackup y => BackupType_eqb x y
  | KStr x, KStr y => String.eqb x y
  | _, _ => false
  end.

(** [str(test_name)] *)
Definition str_key (k : test_key) : string :=
  match k with
  | KBackup POSTGRESQL => "BackupType.POSTGRESQL"
  | KBackup REDIS => "BackupType.REDIS"
  | KBackup S3 => "BackupType.S3"
  | KBackup APPLICATION => "BackupType.APPLICATION"
  | KStr s => s
  end.

(** A Python dict as an insertion-ordered association list. *)
Definition dict (K V : Type) := list (K * V).

(** [d[k] = v] *)
Fixpoint dict_set {V} (d : dict test_key V) (k : test_key) (v : V) : dict test_key V :=
  match d with
  | [] => [(k, v)]
  | (k', v') :: rest =>
      if test_key_eqb k' k then (k', v) :: rest else (k', v') :: dict_set rest k v
  end.

Fixpoint dict_get {V} (d : dict test_key V) (k : test_key) : option V :=
  match d with
  | [] => None
  | (k', v') :: rest => if test_key_eqb k' k then Some v' else dict_get rest k
  end.

(** The instance state the orchestrator reads and writes. *)
Record framework : Type := {
  environment : string;            (* self.config['environment'] *)
  test_results : list TestMetrics  (* self.test_results *)
}.

(** What the four bound test methods do in this run: each returns its
    [TestMetrics] or raises. *)
Record test_funcs : Type := {
  run_postgresql_backup : comp TestMetrics;
  run_redis_backup : comp TestMetrics;
  run_s3_backup : comp TestMetrics;
  run_disaster_recovery_failover : comp TestMetrics
}.

(** The list [tests] of lines 1049-1057. *)
Definition configured_tests (self : framework) (f : test_funcs)
  : list (test_key * comp TestMetrics) :=
  let tests := [ (KBackup POSTGRESQL, run_postgresql_backup f);
                 (KBackup REDIS, run_redis_backup f);
                 (KBackup S3, run_s3_backup f) ] in
  if String.eqb (environment self) "production"
  then tests ++ [ (KStr "disaster_recovery", run_disaster_recovery_failover f) ]
  else tests.

(** One iteration of the loop of lines 1061-1086; [t0], [t1] are the two
    clock reads of the [except] branch. *)
Definition run_one_test (t0 t1 : datetime)
  (acc : dict test_key TestMetrics * list TestMetrics)
  (test : test_key * comp TestMetrics)
  : dict test_key TestMetrics * list TestMetrics :=
  let '(results, test_results) := acc in
  let '(test_name, test_func) := test in
  match test_func with
  | Ok result => (dict_set results test_name result, test_results ++ [result])
  | Raise e =>
      let failed_result :=
        {| test_name := str_key test_name;
           start_time := t0; end_time := t1;
           result := FAILED; details := ErrorDetail (str_exn e);
           recovery_point_objective := None;
           recovery_time_objective := None |} in
      (dict_set results test_name failed_result, test_results ++ [failed_result])
  end.

Definition run_tests_loop (t0 t1 : datetime)
  (tests : list (test_key * comp TestMetrics))
  (acc : dict test_key TestMetrics * list TestMetrics)
  : dict test_key TestMetrics * list TestMetrics :=
  fold_left (run_one_test t0 t1) tests acc.

(** ** _generate_test_report (lines 1094-1162) *)

Record report_summary : Type := {
  total_tests : nat;
  passed : nat;
  failed : nat;
  skipped : nat
}.

Record test_data : Type := {
  name : string;
  status_value : string;
  duration_seconds : Q;
  test_data_details : test_details;
  rpo_minutes : option Q;
  rto_minutes : option Q
}.

Record rpo_rto_analysis : Type := {
  max_rto_minutes : option Q;
  avg_rto_minutes : option Q;
  max_rpo_minutes : option Q;
  avg_rpo_minutes : option Q
}.

Record report : Type := {
  summary : report_summary;
  tests : list test_data;
  analysis : rpo_rto_analysis
}.

Definition count_result (r : TestResult) (l : list TestMetrics) : nat :=
  List.length (filter (fun m => TestResult_eqb (result m) r) l).

Definition minutes_if_truthy (o : option timedelta) : option Q :=
  match o with
  | Some d => if truthy o then Some (total_minutes d) else None
  | None => None
  end.

Definition make_test_data (r : TestMetrics) : test_data :=
  {| name := test_name r;
     status_value := TestResult_value (result r);
     duration_seconds := inject_Z (end_time r - start_time r) / 1000000;
     test_data_details := details r;
     rpo_minutes := minutes_if_truthy (recovery_point_objective r);
     rto_minutes := minutes_if_truthy (recovery_time_objective r) |}.

(** [[f(r).total_seconds() / 60 for r in self.test_results if f(r)]] *)
Fixpoint duration_values (f : TestMetrics -> option timedelta) (l : list TestMetrics)
  : list Q :=
  match l with
  | [] => []
  | r :: rest =>
      match minutes_if_truthy (f r) with
      | Some q => q :: duration_values f rest
      | None => duration_values f rest
      end
  end.

(** [sum(values)] *)
Definition py_sum (values : list Q) : Q := fold_left Qplus values 0%Q.

(** [max(values)] on a non-empty list *)
Definition py_max_list (values : list Q) : option Q :=
  match values with
  | [] => None
  | v :: rest => Some (fold_left pymax rest v)
  end.

(** [sum(values) / len(values)], guarded by [if values:].  The sum and the
    quotient are exact here; in binary64 both round, so the code's average
    agrees with this value only up to rounding (it can exceed the largest
    element by an ulp).  No statement below compares an average with its
    elements or depends on its last digits. *)
Definition py_avg (values : list Q) : option Q :=
  match values with
  | [] => None
  | _ => Some (py_sum values / inject_Z (Z.of_nat (List.length values)))%Q
  end.

(** The [report] dict; saving it (S3, local file) is wrapped in its own
    [try/except] and has no effect on the value. *)
Definition _generate_test_report (self : framework) : report :=
  let rto_values := duration_values recovery_time_objective (test_results self) in
  let rpo_values := duration_values recovery_point_objective (test_results self) in
  {| summary :=
       {| total_tests := List.length (test_results self);
          passed := count_result PASSED (test_results self);
          failed := count_result FAILED (test_results self);
          skipped := count_result SKIPPED (test_results self) |};
     tests := map make_test_data (test_results self);
     analysis :=
       {| max_rto_minutes := py_max_list rto_values;
          avg_rto_minutes := py_avg rto_values;
          max_rpo_minutes := py_max_list rpo_values;
          avg_rpo_minutes := py_avg rpo_values |} |}.

(** ** _send_notifications (lines 1164-1228) *)

Record notification : Type := {
  subject_tag : string;            (* 'SUCCESS' or 'ALERT' *)
  tests_run : nat;
  failed_test_names : list string
}.

Definition failed_tests (l : list TestMetrics) : list TestMetrics :=
  filter (fun r => TestResult_eqb (result r) FAILED) l.

Definition _send_notifications (self : framework) : notification :=
  let failed_tests := failed_tests (test_results self) in
  {| subject_tag := match failed_tests with [] => "SUCCESS" | _ => "ALERT" end;
     tests_run := List.length (test_results self);
     failed_test_names := map test_name failed_tests |}.

(** What one call of [run_all_tests] leaves behind: the returned dict, the
    updated instance, the report and the notification. *)
Record run_output : Type := {
  results : dict test_key TestMetrics;
  self_after : framework;
  generated_report : report;
  sent_notification : notification
}.

Definition run_all_tests (self : framework) (f : test_funcs) (t0 t1 : datetime)
  : comp run_output :=
  let tests := configured_tests self f in
  let '(results, test_results) := run_tests_loop t0 t1 tests ([], test_results self) in
  let self' := {| environment := environment self; test_results := test_results |} in
  Ok {| results := results;
        self_after := self';
        generated_report := _generate_test_report self';
        sent_notification := _send_notifications self' |}.

(** ** main (lines 1230-1249) *)

(** The process exit status: [sys.exit(n)] is modelled by returning [n]
    ([SystemExit] is not an [Exception], so the handler does not catch it).
    [construct] is [BackupTestingFramework(config_file)]: it yields the
    configured environment or raises. *)
Definition main (construct : comp string) (f : test_funcs) (t0 t1 : datetime)
  : Z * option run_output :=
  match construct with
  | Raise _ => (2, None)
  | Ok env =>
      let framework := {| environment := env; test_results := [] |} in
      match run_all_tests framework f t0 t1 with
      | Raise _ => (2, None)
      | Ok out =>
          match failed_tests (test_results (self_after out)) with
          | [] => (0, Some out)
          | _ => (1, Some out)
          end
      end
  end.

(** ** Predicates and specification-side definitions used in the statements *)

(** The per-resource RPO score as the specification words it:
    [max(0, 100 - (rpo_minutes / rpo_threshold_minutes) * 100)]. *)
Definition spec_rpo_score (rpo_minutes rpo_threshold_minutes : Q) : Q :=
  Qmax 0 (100 - (rpo_minutes / rpo_threshold_minutes) * 100).

(** The specification's linear degradation of the replication score: 100 at
    the healthy boundary (60 minutes), 0 from 60 minutes beyond it. *)
Definition spec_lagging_score (lag : Q) : Q :=
  Qmax 0 (100 - ((lag - 60) / 60) * 100).

Definition is_completed (rp : recovery_point) : bool :=
  match Status rp with
  | Some st => String.eqb st "COMPLETED"
  | None => false
  end.

Definition is_available (s : snapshot) : bool :=
  match SnapshotStatus s with
  | Some st => String.eqb st "available"
  | None => false
  end.

(** No element of the snapshot set is a completed backup. *)
Definition no_completed_backup (rps : list recovery_point) : bool :=
  forallb (fun rp => negb (is_completed rp)) rps.

Definition no_available_snapshot (snaps : list snapshot) : bool :=
  forallb (fun s => negb (is_available s)) snaps.

(** A vault listing that answers with the given recovery points. *)
Definition listing (rps : list recovery_point) : comp backup_response :=
  Ok {| RecoveryPoints := Some rps |}.

Definition snapshot_listing (snaps : list snapshot) : comp snapshots_response :=
  Ok {| Snapshots := Some snaps |}.

(** A completed recovery point created at [t]. *)
Definition completed_at (t : datetime) : recovery_point :=
  {| Status := Some "COMPLETED"; CreationDate := Some t |}.

(** A test fails or raises. *)
Definition fails (t : comp TestMetrics) : bool :=
  match t with
  | Ok m => TestResult_eqb (result m) FAILED
  | Raise _ => true
  end.

(** The entry the loop of [run_all_tests] records for one test. *)
Definition recorded (t0 t1 : datetime) (test : test_key * comp TestMetrics) : TestMetrics :=
  match snd test with
  | Ok m => m
  | Raise e =>
      {| test_name := str_key (fst test);
         start_time := t0; end_time := t1;
         result := FAILED; details := ErrorDetail (str_exn e);
         recovery_point_objective := None;
         recovery_time_objective := None |}
  end.

(** ** handler (rto-rpo-monitor.py, lines 10-78) *)

(** What the handler reads before monitoring starts: the two integer
    thresholds ([int(os.getenv(...))] raises on a malformed value), the SNS
    topic and the construction of the four boto3 clients. *)
Record handler_setup : Type := {
  rpo_threshold_minutes : comp Z;
  rto_threshold_minutes : comp Z;
  sns_topic_arn : option string;
  boto3_clients : comp unit
}.

(** The answers of the services to the four listing calls. *)
Record monitor_probes : Type := {
  postgres_vault_listing : comp backup_response;   (* MaxResults=10 *)
  redis_snapshot_listing : comp snapshots_response;
  primary_vault_listing : comp backup_response;    (* MaxResults=1 *)
  dr_vault_listing : comp backup_response
}.

Inductive handler_body : Type :=
| MonitoringCompleted (postgres_rpo_minutes redis_rpo_minutes : minutes)
    (replication : replication_status) (health_score : Q)
| MonitoringError (error : string).

(** The returned dict, with what was handed to CloudWatch and to SNS. *)
Record handler_result : Type := {
  statusCode : Z;
  body : handler_body;
  published : list metric;
  alerted : list alert
}.

(** Truth value of an [Optional[str]]. *)
Definition str_truthy (o : option string) : bool :=
  match o with
  | Some s => negb (String.eqb s "")
  | None => false
  end.

Definition handler (setup : handler_setup) (probes : monitor_probes)
  (now_postgres now_redis : datetime) : handler_result :=
  let run :=
    rpo_threshold <- rpo_threshold_minutes setup ;;
    _rto_threshold <- rto_threshold_minutes setup ;;
    _clients <- boto3_clients setup ;;
    postgres_rpo <- monitor_postgresql_rpo (postgres_vault_listing probes) now_postgres ;;
    redis_rpo <- monitor_redis_rpo (redis_snapshot_listing probes) now_redis ;;
    replication <- monitor_cross_region_replication
                     (primary_vault_listing probes) (dr_vault_listing probes) ;;
    health_score <- calculate_backup_health_score
                      postgres_rpo redis_rpo replication rpo_threshold ;;
    let metrics :=
      publish_metrics_to_cloudwatch postgres_rpo redis_rpo replication health_score in
    let alerts :=
      if str_truthy (sns_topic_arn setup)
      then send_alerts_if_needed postgres_rpo redis_rpo replication
             rpo_threshold health_score
      else [] in
    Ok {| statusCode := 200;
          body := MonitoringCompleted postgres_rpo redis_rpo replication health_score;
          published := metrics;
          alerted := alerts |} in
  match run with
  | Ok r => r
  | Raise e => {| statusCode := 500; body := MonitoringError (str_exn e);
                  published := []; alerted := [] |}
  end.

(** ** _calculate_redis_rpo (backup-testing-framework.py, lines 988-1008) *)

Definition _calculate_redis_rpo
  (call : comp snapshots_response) (now : datetime) : comp timedelta :=
  try_except
    (response <- call ;;
     snaps <- getitem "Snapshots" (Snapshots response) ;;
     match snaps with
     | [] => Ok timedelta_max
     | s :: _ =>
         snapshot_time <- getitem "SnapshotCreateTime" (SnapshotCreateTime s) ;;
         Ok (now - snapshot_time)
     end)
    (fun _ => Ok timedelta_max).

(** ** test_redis_backup, test_s3_backup, test_disaster_recovery_failover
       (lines 159-321) *)

Definition failed_with_error (name : string) (start_time end_time : datetime) (e : exn)
  : TestMetrics :=
  {| test_name := name; start_time := start_time; end_time := end_time;
     result := FAILED; details := ErrorDetail (str_exn e);
     recovery_point_objective := None; recovery_time_objective := None |}.

Definition test_redis_backup
  (snapshot_check restore_test replication_check aof_check : bool)
  (snapshots_call : comp snapshots_response)
  (start_time rpo_now rto_now end_time : datetime) : comp TestMetrics :=
  try_except
    (let details := Checks [("snapshot_check", snapshot_check);
                            ("restore_test", restore_test);
                            ("replication_check", replication_check);
                            ("aof_check", aof_check)] in
     rpo <- _calculate_redis_rpo snapshots_call rpo_now ;;
     let rto := rto_now - start_time in
     let result :=
       if forallb (fun b => b) [snapshot_check; restore_test;
                                replication_check; aof_check]
       then PASSED else FAILED in
     Ok {| test_name := "redis_backup_recovery";
           start_time := start_time; end_time := end_time;
           result := result; details := details;
           recovery_point_objective := Some rpo;
           recovery_time_objective := Some rto |})
    (fun e => Ok (failed_with_error "redis_backup_recovery" start_time end_time e)).

Definition test_s3_backup
  (versioning_check encryption_check replication_check lifecycle_check
     accessibility_test : bool)
  (start_time end_time : datetime) : comp TestMetrics :=
  try_except
    (let details := Checks [("versioning_check", versioning_check);
                            ("encryption_check", encryption_check);
                            ("replication_check", replication_check);
                            ("lifecycle_check", lifecycle_check);
                            ("accessibility_test", accessibility_test)] in
     let result :=
       if forallb (fun b => b) [versioning_check; encryption_check;
                                replication_check; lifecycle_check;
                                accessibility_test]
       then PASSED else FAILED in
     Ok {| test_name := "s3_backup";
           start_time := start_time; end_time := end_time;
           result := result; details := details;
           recovery_point_objective := None;
           recovery_time_objective := None |})
    (fun e => Ok (failed_with_error "s3_backup" start_time end_time e)).

Definition test_disaster_recovery_failover
  (health_check dns_failover_test dr_readiness sync_check : bool)
  (start_time rto_now end_time : datetime) : comp TestMetrics :=
  try_except
    (let details := Checks [("health_check", health_check);
                            ("dns_failover", dns_failover_test);
                            ("dr_readiness", dr_readiness);
                            ("sync_check", sync_check)] in
     let rto := rto_now - start_time in
     let result :=
       if forallb (fun b => b) [health_check; dns_failover_test;
                                dr_readiness; sync_check]
       then PASSED else FAILED in
     Ok {| test_name := "disaster_recovery_failover";
           start_time := start_time; end_time := end_time;
           result := result; details := details;
           recovery_point_objective := None;
           recovery_time_objective := Some rto |})
    (fun e => Ok (failed_with_error "disaster_recovery_failover" start_time end_time e)).

(** ** Sub-checks on the backup vaults (lines 323-356, 407-435, 903-947) *)

Module Vault.

(** One element of [response['RecoveryPoints']] as the framework reads it. *)
Record recovery_point : Type := {
  Status : option string;
  CreationDate : option datetime;
  RecoveryPointArn : option string
}.

(** [list_recovery_points_by_backup_vault(...)] as the framework reads it. *)
Record response : Type := {
  RecoveryPoints : option (list recovery_point)
}.

End Vault.

(** [max(rps, key=lambda x: x['CreationDate'])], continued from the current
    best element: a later element replaces it only when strictly newer. *)
Fixpoint max_by_creation_date (rest : list Vault.recovery_point)
  (best : Vault.recovery_point) (best_date : datetime) : comp Vault.recovery_point :=
  match rest with
  | [] => Ok best
  | rp :: rest' =>
      d <- getitem "CreationDate" (Vault.CreationDate rp) ;;
      if best_date <? d then max_by_creation_date rest' rp d
      else max_by_creation_date rest' best best_date
  end.

(** [timedelta(minutes=n)], [timedelta(hours=n)], [timedelta(days=n)] *)
Definition timedelta_minutes (n : Z) : timedelta := n * 60000000.
Definition timedelta_hours (n : Z) : timedelta := n * 3600000000.
Definition timedelta_days (n : Z) : timedelta := n * 86400000000.

(** [timedelta(minutes=n)] for a configured [n]: the constructor raises
    OverflowError outside [timedelta.min .. timedelta.max], that is when the
    normalised number of days exceeds 999999999 in magnitude. *)
Definition timedelta_of_minutes (n : Z) : comp timedelta :=
  if (-1439999998560 <=? n) && (n <=? 1439999999999)
  then Ok (timedelta_minutes n)
  else Raise OverflowError.

Definition _verify_latest_postgresql_backup
  (call : comp Vault.response) (now : datetime) (config_rpo_threshold_minutes : Z)
  : comp bool :=
  try_except
    (response <- call ;;
     rps <- getitem "RecoveryPoints" (Vault.RecoveryPoints response) ;;
     match rps with
     | [] => Ok false
     | rp0 :: rest =>
         d0 <- getitem "CreationDate" (Vault.CreationDate rp0) ;;
         latest_recovery_point <- max_by_creation_date rest rp0 d0 ;;
         st <- getitem "Status" (Vault.Status latest_recovery_point) ;;
         if negb (String.eqb st "COMPLETED") then Ok false
         else
           d <- getitem "CreationDate" (Vault.CreationDate latest_recovery_point) ;;
           let backup_age := now - d in
           limit <- timedelta_of_minutes config_rpo_threshold_minutes ;;
           if limit <? backup_age then Ok false
           else
             _arn <- getitem "RecoveryPointArn"
                       (Vault.RecoveryPointArn latest_recovery_point) ;;
             Ok true
     end)
    (fun _ => Ok false).

(** The list comprehension of lines 421-424; [now] is read once per element
    and is given the same value throughout. *)
Fixpoint recent_backups (rps : list Vault.recovery_point) (now : datetime)
  : comp (list Vault.recovery_point) :=
  match rps with
  | [] => Ok []
  | rp :: rest =>
      d <- getitem "CreationDate" (Vault.CreationDate rp) ;;
      tail <- recent_backups rest now ;;
      if now - d <? timedelta_days 2 then Ok (rp :: tail) else Ok tail
  end.

Definition _verify_postgresql_cross_region_backup
  (call : comp Vault.response) (now : datetime) : comp bool :=
  try_except
    (response <- call ;;
     rps <- getitem "RecoveryPoints" (Vault.RecoveryPoints response) ;;
     match rps with
     | [] => Ok false
     | _ =>
         recent <- recent_backups rps now ;;
         match recent with
         | [] => Ok false
         | _ => Ok true
         end
     end)
    (fun _ => Ok false).

Definition _verify_data_synchronization (config_environment : string)
  (primary_call dr_call : comp Vault.response) : comp bool :=
  try_except
    (if negb (String.eqb config_environment "production") then Ok true
     else
       primary_response <- primary_call ;;
       dr_response <- dr_call ;;
       primary_rps <- getitem "RecoveryPoints" (Vault.RecoveryPoints primary_response) ;;
       match primary_rps with
       | [] => Ok false
       | p0 :: _ =>
           dr_rps <- getitem "RecoveryPoints" (Vault.RecoveryPoints dr_response) ;;
           match dr_rps with
           | [] => Ok false
           | d0 :: _ =>
               primary_backup_time <- getitem "CreationDate" (Vault.CreationDate p0) ;;
               dr_backup_time <- getitem "CreationDate" (Vault.CreationDate d0) ;;
               let sync_delay := dr_backup_time - primary_backup_time in
               if timedelta_hours 24 <? sync_delay then Ok false else Ok true
           end
       end)
    (fun _ => Ok false).

(** ** Statement-side definitions for the properties beyond the claims *)

(** A Redis snapshot with both fields present. *)
Definition well_formed_snapshot (s : snapshot) : bool :=
  match SnapshotStatus s, SnapshotCreateTime s with
  | Some _, Some _ => true
  | _, _ => false
  end.

(** Creation times of the available snapshots. *)
Fixpoint available_times (snaps : list snapshot) : list datetime :=
  match snaps with
  | [] => []
  | s :: rest =>
      match SnapshotCreateTime s with
      | Some t => if is_available s then t :: available_times rest
                  else available_times rest
      | None => available_times rest
      end
  end.

(** Creation time of the loop accumulator [latest_snapshot], if any. *)
Definition snapshot_time_of (acc : option snapshot) : option datetime :=
  match acc with
  | Some l => SnapshotCreateTime l
  | None => None
  end.

(** A recovery point that is present, readable and not completed. *)
Definition is_pending (rp : recovery_point) : bool :=
  match Status rp with
  | Some st => negb (String.eqb st "COMPLETED")
  | None => false
  end.

(** The recovery point is younger than two days at [now]. *)
Definition is_recent (now : datetime) (rp : Vault.recovery_point) : bool :=
  match Vault.CreationDate rp with
  | Some d => now - d <? timedelta_days 2
  | None => false
  end.

Definition has_creation_date (rp : Vault.recovery_point) : bool :=
  match Vault.CreationDate rp with
  | Some _ => true
  | None => false
  end.

(** A duration is finite and at most [c]: the negation of [x > c]. *)
Definition within_limit (x : minutes) (c : Q) : Prop :=
  match x with
  | Fin q => (q <= c)%Q
  | Inf => False
  end.

(** The value is one a float can hold: [inf], or a finite value of magnitude
    at most [float_max]. *)
Definition is_float (x : minutes) : Prop :=
  match x with
  | Fin q => (- inject_Z float_max <= q /\ q <= inject_Z float_max)%Q
  | Inf => True
  end.

(** A duration is non-negative or [inf]. *)
Definition nonneg_minutes (x : minutes) : Prop :=
  match x with
  | Fin q => (0 <= q)%Q
  | Inf => True
  end.

(** Every key of the dict occurs once. *)
Fixpoint dict_keys_distinct {V} (d : dict test_key V) : bool :=
  match d with
  | [] => true
  | (k, _) :: rest =>
      negb (existsb (fun kv => test_key_eqb (fst kv) k) rest) && dict_keys_distinct rest
  end.

(** * Properties *)

Local Open Scope Q_scope.

(** ** Arithmetic helpers *)

Lemma pymax_Qmax (a b : Q) : pymax a b == Qmax a b.
Proof.
  unfold pymax. destruct (Qle_bool b a) eqn:E.
  - apply Qle_bool_iff in E. symmetry. now apply Q.max_l.
  - symmetry. apply Q.max_r.
    destruct (Qlt_le_dec a b) as [H|H]; [now apply Qlt_le_weak|].
    apply Qle_bool_iff in H. congruence.
Qed.

Lemma pymax_nonneg (b : Q) : 0 <= pymax 0 b.
Proof. rewrite pymax_Qmax. apply Q.le_max_l. Qed.

Lemma pymax_nonpos (b : Q) : b <= 0 -> pymax 0 b = 0%Q.
Proof.
  intros H. unfold pymax. apply Qle_bool_iff in H. now rewrite H.
Qed.

Lemma int_too_large_false_iff (n : Z) :
  int_too_large n = false <-> (Z.abs n < float_overflow_bound)%Z.
Proof. unfold int_too_large. apply Z.leb_gt. Qed.

Lemma int_too_large_true_iff (n : Z) :
  int_too_large n = true <-> (float_overflow_bound <= Z.abs n)%Z.
Proof. unfold int_too_large. apply Z.leb_le. Qed.

Lemma float_max_lt_overflow_bound : (float_max < float_overflow_bound)%Z.
Proof. reflexivity. Qed.

Lemma exact_int_lt_overflow_bound : (2 ^ 53 < float_overflow_bound)%Z.
Proof. reflexivity. Qed.

Lemma rpo_score_finite (q : Q) (thr : Z) :
  thr <> 0%Z ->
  (Z.abs thr < float_overflow_bound)%Z ->
  rpo_score (Fin q) thr = Ok (pymax 0 (100 - (q / inject_Z thr) * 100)).
Proof.
  intros H Hb. unfold rpo_score.
  apply int_too_large_false_iff in Hb. rewrite Hb.
  destruct (Z.eqb_spec thr 0%Z) as [E|E]; [contradiction|reflexivity].
Qed.

(** With a threshold that does not convert to a float, every finite RPO
    makes the score computation raise. *)
Lemma rpo_score_overflow (q : Q) (thr : Z) :
  (float_overflow_bound <= Z.abs thr)%Z ->
  rpo_score (Fin q) thr = Raise OverflowError.
Proof.
  intros Hb. unfold rpo_score.
  apply int_too_large_true_iff in Hb. now rewrite Hb.
Qed.

(** ** Health score *)

(** C1. For finite RPOs [p], [r], any replication status record [s] and a
    threshold the division accepts (non-zero, and small enough to convert to
    a float), [calculate_backup_health_score] returns
    [postgres_score*0.4 + redis_score*0.3 + replication_score*0.3], each RPO
    score being [max(0, 100 - (rpo/threshold)*100)]; whenever the three
    scores are 100, 0 and 50 the result is 55. *)
Theorem health_score_weighted_sum (p r : Q) (s : replication_status) (thr : Z)
  (Hthr : thr <> 0%Z) (Hfloat : (Z.abs thr < float_overflow_bound)%Z) :
  exists v,
    calculate_backup_health_score (Fin p) (Fin r) s thr = Ok v /\
    v == spec_rpo_score p (inject_Z thr) * 0.4
         + spec_rpo_score r (inject_Z thr) * 0.3
         + replication_score s * 0.3 /\
    (spec_rpo_score p (inject_Z thr) == 100 ->
     spec_rpo_score r (inject_Z thr) == 0 ->
     replication_score s == 50 ->
     v == 55).
Proof.
  unfold calculate_backup_health_score, calculate_backup_health_score_body.
  rewrite !rpo_score_finite by assumption. cbn [bind try_except].
  eexists. split; [reflexivity|].
  unfold spec_rpo_score.
  assert (E : forall x, pymax 0 x == Qmax 0 x) by (intro; apply pymax_Qmax).
  split.
  - rewrite !E. reflexivity.
  - intros Hp Hr Hs. rewrite !E, Hp, Hr, Hs. reflexivity.
Qed.

Lemma health_score_weighted_sum_witness :
  60%Z <> 0%Z /\ (Z.abs 60 < float_overflow_bound)%Z /\
  exists v,
    calculate_backup_health_score (Fin 0) (Fin 60)
      {| status := "LAGGING"; lag_minutes := Fin 30;
         primary_backup_time := None; dr_backup_time := None |} 60 = Ok v /\
    v == 55.
Proof.
  split; [lia|]. split; [reflexivity|].
  destruct (health_score_weighted_sum 0 60
              {| status := "LAGGING"; lag_minutes := Fin 30;
                 primary_backup_time := None; dr_backup_time := None |} 60)
    as (v & Hv & _ & H55); [lia | reflexivity |].
  exists v. split; [exact Hv|].
  apply H55; vm_compute; reflexivity.
Defined.

(** ** The RPO monitors on missing data *)

Lemma try_except_returns {A} (body : comp A) (h : exn -> comp A) :
  (forall e, returns (h e)) -> returns (try_except body h).
Proof.
  intros Hh. destruct body as [a|e]; cbn.
  - now exists a.
  - apply Hh.
Qed.

Lemma find_completed_no_completed (rps : list recovery_point) :
  no_completed_backup rps = true ->
  find_completed rps = Ok None \/ exists e, find_completed rps = Raise e.
Proof.
  induction rps as [|rp rest IH]; cbn; intros H.
  - now left.
  - apply andb_true_iff in H as [Hrp Hrest].
    unfold is_completed in Hrp.
    destruct (Status rp) as [st|]; cbn.
    + apply negb_true_iff in Hrp. rewrite Hrp. now apply IH.
    + right. eexists. reflexivity.
Qed.

Lemma find_latest_available_no_available (snaps : list snapshot) :
  no_available_snapshot snaps = true ->
  forall acc,
    find_latest_available snaps acc = Ok acc \/
    exists e, find_latest_available snaps acc = Raise e.
Proof.
  induction snaps as [|s rest IH]; cbn; intros H acc.
  - now left.
  - apply andb_true_iff in H as [Hs Hrest].
    unfold is_available in Hs.
    destruct (SnapshotStatus s) as [st|]; cbn.
    + apply negb_true_iff in Hs. rewrite Hs. now apply IH.
    + right. eexists. reflexivity.
Qed.

Lemma postgresql_rpo_no_completed (rps : list recovery_point) (now : datetime) :
  no_completed_backup rps = true ->
  monitor_postgresql_rpo (listing rps) now = Ok Inf.
Proof.
  intros H. unfold monitor_postgresql_rpo, monitor_postgresql_rpo_body, listing.
  cbn [bind getitem RecoveryPoints].
  destruct rps as [|rp rest]; [reflexivity|].
  destruct (find_completed_no_completed _ H) as [E|[e E]]; rewrite E; reflexivity.
Qed.

Lemma redis_rpo_no_available (snaps : list snapshot) (now : datetime) :
  no_available_snapshot snaps = true ->
  monitor_redis_rpo (snapshot_listing snaps) now = Ok Inf.
Proof.
  intros H. unfold monitor_redis_rpo, monitor_redis_rpo_body, snapshot_listing.
  cbn [bind getitem Snapshots].
  destruct snaps as [|s rest]; [reflexivity|].
  destruct (find_latest_available_no_available _ H None) as [E|[e E]];
    rewrite E; reflexivity.
Qed.

(** C2. When the snapshot set holds no completed backup (it is empty, or no
    element has status COMPLETED; for Redis: none is available) the RPO
    monitor returns [+inf], and the per-resource score that
    [calculate_backup_health_score] computes from it is exactly 0 for every
    threshold. *)
Theorem missing_backup_rpo_inf_score_zero
  (rps : list recovery_point) (snaps : list snapshot) (now : datetime)
  (rpo_threshold : Z) (s : replication_status)
  (Hpg : no_completed_backup rps = true)
  (Hredis : no_available_snapshot snaps = true) :
  monitor_postgresql_rpo (listing rps) now = Ok Inf /\
  monitor_redis_rpo (snapshot_listing snaps) now = Ok Inf /\
  (rpo <- monitor_postgresql_rpo (listing rps) now ;; rpo_score rpo rpo_threshold) = Ok 0 /\
  (rpo <- monitor_redis_rpo (snapshot_listing snaps) now ;; rpo_score rpo rpo_threshold) = Ok 0 /\
  calculate_backup_health_score Inf Inf s rpo_threshold
    = Ok (0 * 0.4 + 0 * 0.3 + replication_score s * 0.3).
Proof.
  rewrite (postgresql_rpo_no_completed rps now Hpg).
  rewrite (redis_rpo_no_available snaps now Hredis).
  repeat split; reflexivity.
Qed.

Lemma missing_backup_rpo_inf_score_zero_witness :
  monitor_postgresql_rpo
    (listing [ {| Status := Some "FAILED"; CreationDate := Some 0%Z |};
               {| Status := Some "EXPIRED"; CreationDate := Some 5%Z |} ]) 100 = Ok Inf /\
  monitor_redis_rpo (snapshot_listing []) 100 = Ok Inf.
Proof.
  destruct (missing_backup_rpo_inf_score_zero
              [ {| Status := Some "FAILED"; CreationDate := Some 0%Z |};
                {| Status := Some "EXPIRED"; CreationDate := Some 5%Z |} ]
              [] 100 60 (failure_status "ERROR"))
    as (Hp & Hr & _); [reflexivity | reflexivity |].
  split; [exact Hp | exact Hr].
Defined.

(** C7. The monitors never propagate an exception: each always returns a
    value; whenever the probe raised, the response was garbled (the body
    raised) or the backups are absent, the RPO monitors return [+inf] and the
    replication monitor returns a status record whose lag is [+inf]. *)
Theorem monitors_never_raise
  (pg_call : comp backup_response) (redis_call : comp snapshots_response)
  (primary_call dr_call : comp backup_response) (now : datetime) :
  (returns (monitor_postgresql_rpo pg_call now) /\
   ((exists e, monitor_postgresql_rpo_body pg_call now = Raise e) ->
    monitor_postgresql_rpo pg_call now = Ok Inf) /\
   ((exists e, pg_call = Raise e) \/ pg_call = listing [] ->
    monitor_postgresql_rpo pg_call now = Ok Inf)) /\
  (returns (monitor_redis_rpo redis_call now) /\
   ((exists e, monitor_redis_rpo_body redis_call now = Raise e) ->
    monitor_redis_rpo redis_call now = Ok Inf) /\
   ((exists e, redis_call = Raise e) \/ redis_call = snapshot_listing [] ->
    monitor_redis_rpo redis_call now = Ok Inf)) /\
  (returns (monitor_cross_region_replication primary_call dr_call) /\
   ((exists e, monitor_cross_region_replication_body primary_call dr_call = Raise e) ->
    monitor_cross_region_replication primary_call dr_call
      = Ok (failure_status "ERROR")) /\
   ((exists e, primary_call = Raise e) \/ (exists e, dr_call = Raise e) ->
    monitor_cross_region_replication primary_call dr_call
      = Ok (failure_status "ERROR")) /\
   (primary_call = listing [] \/ dr_call = listing [] ->
    exists s, monitor_cross_region_replication primary_call dr_call = Ok s /\
              lag_minutes s = Inf)).
Proof.
  repeat split.
  - apply try_except_returns. intros _. now exists Inf.
  - intros [e E]. unfold monitor_postgresql_rpo. now rewrite E.
  - intros [[e ->] | ->]; reflexivity.
  - apply try_except_returns. intros _. now exists Inf.
  - intros [e E]. unfold monitor_redis_rpo. now rewrite E.
  - intros [[e ->] | ->]; reflexivity.
  - apply try_except_returns. intros _. now eexists.
  - intros [e E]. unfold monitor_cross_region_replication. now rewrite E.
  - intros [[e ->] | [e ->]]; [reflexivity|].
    destruct primary_call; reflexivity.
  - intros [-> | ->].
    + destruct dr_call as [resp|e]; eexists; split; reflexivity.
    + destruct primary_call as [[[[|p ps]|]]|e]; eexists; split; reflexivity.
Qed.

Lemma monitors_never_raise_witness :
  monitor_postgresql_rpo (Raise (ClientError "AccessDenied")) 0 = Ok Inf /\
  monitor_redis_rpo (snapshot_listing []) 0 = Ok Inf /\
  monitor_cross_region_replication (listing []) (Raise (ClientError "Timeout"))
    = Ok (failure_status "ERROR").
Proof.
  destruct (monitors_never_raise
              (Raise (ClientError "AccessDenied")) (snapshot_listing [])
              (listing []) (Raise (ClientError "Timeout")) 0)
    as ((_ & _ & Hp) & (_ & _ & Hr) & (_ & _ & Hx & _)).
  split; [|split].
  - apply Hp. left. eexists. reflexivity.
  - apply Hr. right. reflexivity.
  - apply Hx. right. eexists. reflexivity.
Defined.

(** ** Cross-region replication status *)

Lemma total_minutes_lt_iff (td : timedelta) (c : Z) :
  total_minutes td < inject_Z c <-> (td < c * 60000000)%Z.
Proof.
  unfold total_minutes, Qlt, Qdiv, Qmult, Qinv, inject_Z. cbn. lia.
Qed.

Lemma total_minutes_le_iff (td : timedelta) (c : Z) :
  inject_Z c <= total_minutes td <-> (c * 60000000 <= td)%Z.
Proof.
  unfold total_minutes, Qle, Qdiv, Qmult, Qinv, inject_Z. cbn. lia.
Qed.

(** What the function returns once both vaults list a first recovery point
    that carries a creation date. *)
Lemma replication_success_path
  (primary_time dr_time : datetime) (st_p st_d : option string)
  (ps ds : list recovery_point) :
  monitor_cross_region_replication
    (listing ({| Status := st_p; CreationDate := Some primary_time |} :: ps))
    (listing ({| Status := st_d; CreationDate := Some dr_time |} :: ds))
  = Ok {| status := if negb (Qle_bool 60 (total_minutes (dr_time - primary_time)))
                    then "HEALTHY" else "LAGGING";
          lag_minutes := Fin (total_minutes (dr_time - primary_time));
          primary_backup_time := Some primary_time;
          dr_backup_time := Some dr_time |}.
Proof. reflexivity. Qed.

(** C3 (as the code has it). With lag = (DR creation time - primary creation
    time) in minutes, [monitor_cross_region_replication] reports that lag and
    status HEALTHY when lag < 60, LAGGING when lag >= 60: a lag of exactly 60
    minutes is LAGGING. *)
Theorem replication_status_boundary
  (primary_time dr_time : datetime) (st_p st_d : option string)
  (ps ds : list recovery_point) :
  exists s,
    monitor_cross_region_replication
      (listing ({| Status := st_p; CreationDate := Some primary_time |} :: ps))
      (listing ({| Status := st_d; CreationDate := Some dr_time |} :: ds)) = Ok s /\
    lag_minutes s = Fin (total_minutes (dr_time - primary_time)) /\
    (total_minutes (dr_time - primary_time) < 60 -> status s = "HEALTHY") /\
    (60 <= total_minutes (dr_time - primary_time) -> status s = "LAGGING").
Proof.
  rewrite replication_success_path. eexists. split; [reflexivity|].
  cbn [lag_minutes status]. split; [reflexivity|].
  destruct (Qle_bool 60 (total_minutes (dr_time - primary_time))) eqn:E; cbn [negb].
  - apply Qle_bool_iff in E. split; [intros H; lra | reflexivity].
  - split; [reflexivity|]. intros H. apply Qle_bool_iff in H. congruence.
Qed.

Lemma replication_status_boundary_witness :
  exists s,
    monitor_cross_region_replication
      (listing [completed_at 0]) (listing [completed_at 3600000000]) = Ok s /\
    status s = "LAGGING".
Proof.
  destruct (replication_status_boundary 0 3600000000
              (Some "COMPLETED") (Some "COMPLETED") [] [])
    as (s & Hs & _ & _ & Hlag).
  exists s. split; [exact Hs|].
  apply Hlag. vm_compute. discriminate.
Defined.

(** C3, as stated, fails: primary backup at 0, DR backup 3 600 000 000
    microseconds (exactly 60 minutes) later: the lag is 60, which is [<= 60],
    and the status is LAGGING, not HEALTHY. *)
Lemma lag_of_exactly_60_is_not_healthy :
  exists s lag,
    monitor_cross_region_replication
      (listing [completed_at 0]) (listing [completed_at 3600000000]) = Ok s /\
    lag_minutes s = Fin lag /\
    lag == 60 /\
    status s = "LAGGING" /\
    ~ (lag <= 60 -> status s = "HEALTHY").
Proof.
  eexists. eexists. split; [reflexivity|]. cbn [lag_minutes status].
  split; [reflexivity|]. split; [reflexivity|]. split; [reflexivity|].
  intros H. assert (Hle : total_minutes (3600000000 - 0) <= 60) by (vm_compute; discriminate).
  specialize (H Hle). vm_compute in H. discriminate H.
Qed.

(** C5 (as the code has it). When the DR timestamp is earlier than the
    primary one, [monitor_cross_region_replication] passes the negative lag
    through unchanged, with status HEALTHY and the two timestamps; nothing
    clamps it and the record has no anomaly flag. *)
Theorem negative_lag_passed_through
  (primary_time dr_time : datetime) (st_p st_d : option string)
  (ps ds : list recovery_point)
  (Hskew : (dr_time < primary_time)%Z) :
  monitor_cross_region_replication
    (listing ({| Status := st_p; CreationDate := Some primary_time |} :: ps))
    (listing ({| Status := st_d; CreationDate := Some dr_time |} :: ds))
  = Ok {| status := "HEALTHY";
          lag_minutes := Fin (total_minutes (dr_time - primary_time));
          primary_backup_time := Some primary_time;
          dr_backup_time := Some dr_time |} /\
  total_minutes (dr_time - primary_time) < 0.
Proof.
  assert (Hneg : total_minutes (dr_time - primary_time) < 0).
  { apply (total_minutes_lt_iff _ 0). lia. }
  split; [|exact Hneg].
  rewrite replication_success_path.
  destruct (Qle_bool 60 (total_minutes (dr_time - primary_time))) eqn:E; cbn [negb].
  - apply Qle_bool_iff in E. lra.
  - reflexivity.
Qed.

Lemma negative_lag_passed_through_witness :
  (0 < 6000000000)%Z /\
  monitor_cross_region_replication
    (listing [completed_at 6000000000]) (listing [completed_at 0])
  = Ok {| status := "HEALTHY";
          lag_minutes := Fin (total_minutes (0 - 6000000000));
          primary_backup_time := Some 6000000000%Z;
          dr_backup_time := Some 0%Z |}.
Proof.
  split; [lia|].
  apply (negative_lag_passed_through 6000000000 0
           (Some "COMPLETED") (Some "COMPLETED") [] []).
  lia.
Defined.

(** C5, as stated, fails: primary backup at 6 000 000 000 microseconds (100
    minutes), DR backup at 0: the reported lag is -100 minutes, not 0. *)
Lemma negative_lag_not_clamped :
  exists s lag,
    monitor_cross_region_replication
      (listing [completed_at 6000000000]) (listing [completed_at 0]) = Ok s /\
    lag_minutes s = Fin lag /\
    lag == -100 /\
    ~ lag_minutes s = Fin 0 /\
    ~ lag == 0.
Proof.
  eexists. eexists. split; [reflexivity|]. cbn [lag_minutes].
  split; [reflexivity|]. split; [reflexivity|].
  split; [|vm_compute; discriminate].
  intros H. vm_compute in H. discriminate H.
Qed.

(** ** Replication component of the score *)

Lemma lagging_score_zero_from_60 (lag : Q) :
  60 <= lag -> lagging_score (Fin lag) = 0.
Proof.
  intros H. cbn [lagging_score]. apply pymax_nonpos.
  unfold Qdiv. setoid_replace (/ 60) with (1 # 60) by reflexivity. lra.
Qed.

(** Every LAGGING record the monitor itself produces scores 0. *)
Lemma monitored_lagging_scores_zero
  (primary_call dr_call : comp backup_response) (s : replication_status) :
  monitor_cross_region_replication primary_call dr_call = Ok s ->
  status s = "LAGGING" ->
  replication_score s = 0.
Proof.
  unfold monitor_cross_region_replication, monitor_cross_region_replication_body.
  intros Hs Hst.
  destruct primary_call as [[[[|p ps]|]]|e]; cbn in Hs;
    try (injection Hs as <-; discriminate Hst).
  all: destruct dr_call as [[[[|d ds]|]]|e]; cbn in Hs;
    try (injection Hs as <-; discriminate Hst).
  destruct (CreationDate p) as [pt|]; cbn in Hs;
    [|injection Hs as <-; discriminate Hst].
  destruct (CreationDate d) as [dt|]; cbn in Hs;
    [|injection Hs as <-; discriminate Hst].
  injection Hs as <-. cbn [status] in Hst.
  unfold replication_score. cbn [status lag_minutes].
  destruct (Qle_bool 60 (total_minutes (dt - pt))) eqn:E; cbn [negb] in *;
    [|discriminate Hst].
  cbn. apply Qle_bool_iff in E. now apply lagging_score_zero_from_60.
Qed.

(** C4 (code vs. claim). For a LAGGING status with lag >= 60 -- the only lags
    the monitor labels LAGGING -- the replication score computed by the code
    is 0, already at the healthy boundary, whereas the linear degradation of
    the specification is positive for every lag below 120. *)
Theorem lagging_replication_score_is_zero
  (s : replication_status) (lag : Q)
  (Hst : status s = "LAGGING") (Hlag : lag_minutes s = Fin lag)
  (Hge : 60 <= lag) :
  replication_score s = 0 /\
  (lag < 120 -> 0 < spec_lagging_score lag).
Proof.
  split.
  - unfold replication_score. rewrite Hst, Hlag. cbn.
    now apply lagging_score_zero_from_60.
  - intros H. unfold spec_lagging_score.
    apply Q.max_lt_iff. right.
    unfold Qdiv. setoid_replace (/ 60) with (1 # 60) by reflexivity. lra.
Qed.

Lemma lagging_replication_score_is_zero_witness :
  replication_score
    {| status := "LAGGING"; lag_minutes := Fin 61;
       primary_backup_time := Some 0%Z; dr_backup_time := Some 3660000000%Z |} = 0 /\
  0 < spec_lagging_score 61.
Proof.
  destruct (lagging_replication_score_is_zero
              {| status := "LAGGING"; lag_minutes := Fin 61;
                 primary_backup_time := Some 0%Z;
                 dr_backup_time := Some 3660000000%Z |} 61)
    as (Hz & Hpos); [reflexivity | reflexivity | vm_compute; discriminate |].
  split; [exact Hz|]. apply Hpos. reflexivity.
Defined.

(** ** Range of the health score *)

Lemma replication_score_nonneg (s : replication_status) : 0 <= replication_score s.
Proof.
  unfold replication_score.
  destruct (String.eqb (status s) "HEALTHY"); [lra|].
  destruct (String.eqb (status s) "LAGGING"); [|lra].
  destruct (lag_minutes s); cbn; [apply pymax_nonneg | lra].
Qed.

Lemma rpo_score_nonneg (rpo : minutes) (thr : Z) (v : Q) :
  rpo_score rpo thr = Ok v -> 0 <= v.
Proof.
  destruct rpo as [q|]; unfold rpo_score.
  - destruct (int_too_large thr); [discriminate|].
    destruct (thr =? 0)%Z; [discriminate|].
    intros H. injection H as <-. apply pymax_nonneg.
  - intros H. injection H as <-. lra.
Qed.

(** X4. The lower bound of the documented range holds on every input:
    whatever [calculate_backup_health_score] returns is at least 0, also for
    negative RPOs, a zero or negative threshold and unknown statuses. *)
Lemma health_score_nonneg
  (postgres_rpo redis_rpo : minutes) (s : replication_status) (thr : Z) (v : Q) :
  calculate_backup_health_score postgres_rpo redis_rpo s thr = Ok v -> 0 <= v.
Proof.
  unfold calculate_backup_health_score, calculate_backup_health_score_body.
  destruct (rpo_score postgres_rpo thr) as [ps|e] eqn:Ep; cbn;
    [|intros H; injection H as <-; lra].
  destruct (rpo_score redis_rpo thr) as [rs|e] eqn:Er; cbn;
    [|intros H; injection H as <-; lra].
  intros H. injection H as <-.
  pose proof (rpo_score_nonneg _ _ _ Ep).
  pose proof (rpo_score_nonneg _ _ _ Er).
  pose proof (replication_score_nonneg s).
  lra.
Qed.

(** C6 (code vs. claim). A completed PostgreSQL backup whose creation date is
    60 minutes ahead of the monitor's clock gives an RPO of -60 minutes;
    with a Redis RPO of 0, a HEALTHY replication status and threshold 60 the
    health score is 140, outside [0, 100]. *)
Theorem health_score_exceeds_100_on_negative_rpo :
  exists postgres_rpo v,
    monitor_postgresql_rpo (listing [completed_at 3600000000]) 0 = Ok (Fin postgres_rpo) /\
    postgres_rpo == -60 /\
    calculate_backup_health_score (Fin postgres_rpo) (Fin 0)
      {| status := "HEALTHY"; lag_minutes := Fin 0;
         primary_backup_time := Some 0%Z; dr_backup_time := Some 0%Z |} 60 = Ok v /\
    v == 140 /\
    ~ v <= 100.
Proof.
  eexists. eexists. split; [reflexivity|]. split; [reflexivity|].
  split; [reflexivity|]. split; [reflexivity|].
  vm_compute. intros H. now apply H.
Qed.

(** On non-negative durations and a positive threshold the score also stays
    below 100. *)
Lemma health_score_le_100
  (p r : Q) (s : replication_status) (thr : Z) (v : Q) :
  (0 < thr)%Z -> 0 <= p -> 0 <= r ->
  (forall lag, lag_minutes s = Fin lag -> 0 <= lag) ->
  calculate_backup_health_score (Fin p) (Fin r) s thr = Ok v ->
  v <= 100.
Proof.
  intros Hthr Hp Hr Hlag.
  unfold calculate_backup_health_score, calculate_backup_health_score_body.
  destruct (Z.lt_ge_cases (Z.abs thr) float_overflow_bound) as [Hb|Hb];
    [|rewrite rpo_score_overflow by exact Hb; cbn;
      intros H; injection H as <-; lra].
  rewrite !rpo_score_finite by (assumption || lia). cbn [bind try_except].
  intros H. injection H as <-.
  assert (Ht : 0 < inject_Z thr) by (unfold Qlt, inject_Z; cbn; lia).
  assert (Hpos : forall q, 0 <= q -> 0 <= q / inject_Z thr).
  { intros q Hq. apply Qle_shift_div_l; [exact Ht | lra]. }
  assert (Hs : replication_score s <= 100).
  { unfold replication_score.
    destruct (String.eqb (status s) "HEALTHY"); [lra|].
    destruct (String.eqb (status s) "LAGGING"); [|lra].
    destruct (lag_minutes s) as [lag|] eqn:El; cbn; [|lra].
    rewrite pymax_Qmax. apply Q.max_lub; [lra|].
    specialize (Hlag lag eq_refl).
    unfold Qdiv. setoid_replace (/ 60) with (1 # 60) by reflexivity. lra. }
  pose proof (Hpos p Hp) as Hp'. pose proof (Hpos r Hr) as Hr'.
  assert (Hps : pymax 0 (100 - p / inject_Z thr * 100) <= 100)
    by (rewrite pymax_Qmax; apply Q.max_lub; lra).
  assert (Hrs : pymax 0 (100 - r / inject_Z thr * 100) <= 100)
    by (rewrite pymax_Qmax; apply Q.max_lub; lra).
  lra.
Qed.

(** ** Alerts *)

(** Case analysis on every remaining [if] condition of the goal. *)
Ltac case_ifs :=
  repeat match goal with
         | |- context [if ?b then _ else _] => destruct b
         end.

Lemma existsb_snoc {A} (f : A -> bool) (l : list A) (a : A) :
  existsb f (l ++ [a]) = existsb f l || f a.
Proof. rewrite existsb_app. cbn. now rewrite orb_false_r. Qed.

Lemma redis_alert_iff
  (postgres_rpo redis_rpo : minutes) (s : replication_status) (thr : Z) (hs : Q) :
  existsb is_redis_alert (send_alerts_if_needed postgres_rpo redis_rpo s thr hs)
  = gt_minutes redis_rpo 1440.
Proof.
  unfold send_alerts_if_needed.
  change (inject_Z redis_rpo_threshold) with (1440 : Q).
  destruct (gt_minutes redis_rpo 1440); case_ifs;
    cbn; rewrite ?existsb_snoc; reflexivity.
Qed.

Lemma postgres_alert_iff
  (postgres_rpo redis_rpo : minutes) (s : replication_status) (thr : Z) (hs : Q) :
  existsb is_postgres_alert (send_alerts_if_needed postgres_rpo redis_rpo s thr hs)
  = gt_minutes postgres_rpo (inject_Z thr).
Proof.
  unfold send_alerts_if_needed.
  destruct (gt_minutes postgres_rpo (inject_Z thr)); case_ifs;
    cbn; rewrite ?existsb_snoc; reflexivity.
Qed.

Lemma redis_alert_content
  (postgres_rpo redis_rpo : minutes) (s : replication_status) (thr : Z) (hs : Q)
  (a : alert) :
  In a (send_alerts_if_needed postgres_rpo redis_rpo s thr hs) ->
  is_redis_alert a = true -> a = RedisRpoExceeded redis_rpo 1440.
Proof.
  unfold send_alerts_if_needed.
  change redis_rpo_threshold with 1440%Z.
  case_ifs; cbn [app]; intros Hin Ha;
    repeat (destruct Hin as [<- | Hin]; [try discriminate Ha; try reflexivity|]);
    contradiction.
Qed.

(** C10. [send_alerts_if_needed] tests the Redis RPO against the fixed 1440
    minutes, not against [rpo_threshold]: whatever the other arguments are,
    a Redis alert is among the alerts exactly when the Redis RPO is above
    1440 (or [inf]), and it then names the RPO and the threshold 1440, while
    a PostgreSQL alert is among them exactly when the PostgreSQL RPO is above
    [rpo_threshold].  So an RPO [q] with [rpo_threshold < q <= 1440] raises
    no Redis alert when it is the Redis RPO, and raises the PostgreSQL alert
    when it is the PostgreSQL RPO. *)
Theorem redis_alert_uses_fixed_24h_threshold
  (postgres_rpo redis_rpo : minutes) (s : replication_status)
  (rpo_threshold : Z) (hs : Q) :
  let alerts := send_alerts_if_needed postgres_rpo redis_rpo s rpo_threshold hs in
  existsb is_redis_alert alerts = gt_minutes redis_rpo 1440 /\
  (forall a, In a alerts -> is_redis_alert a = true ->
     a = RedisRpoExceeded redis_rpo 1440) /\
  existsb is_postgres_alert alerts
  = gt_minutes postgres_rpo (inject_Z rpo_threshold) /\
  (forall q, inject_Z rpo_threshold < q -> q <= 1440 ->
     existsb is_redis_alert
       (send_alerts_if_needed postgres_rpo (Fin q) s rpo_threshold hs) = false /\
     existsb is_postgres_alert
       (send_alerts_if_needed (Fin q) redis_rpo s rpo_threshold hs) = true).
Proof.
  cbn zeta. split; [apply redis_alert_iff|].
  split; [intros a; apply redis_alert_content|].
  split; [apply postgres_alert_iff|].
  intros q Hlow Hhigh.
  rewrite redis_alert_iff, postgres_alert_iff. cbn [gt_minutes]. split.
  - apply Qle_bool_iff in Hhigh. now rewrite Hhigh.
  - apply negb_true_iff. destruct (Qle_bool q (inject_Z rpo_threshold)) eqn:E;
      [|reflexivity].
    apply Qle_bool_iff in E. lra.
Qed.

Lemma redis_alert_uses_fixed_24h_threshold_witness :
  existsb is_redis_alert
    (send_alerts_if_needed (Fin 10) (Fin 100) (failure_status "HEALTHY") 60 95)
  = false /\
  existsb is_postgres_alert
    (send_alerts_if_needed (Fin 100) (Fin 1441) (failure_status "HEALTHY") 60 95)
  = true /\
  send_alerts_if_needed (Fin 10) (Fin 1441) (failure_status "HEALTHY") 60 95
  = [RedisRpoExceeded (Fin 1441) 1440].
Proof.
  destruct (redis_alert_uses_fixed_24h_threshold
              (Fin 10) (Fin 1441) (failure_status "HEALTHY") 60 95)
    as (_ & _ & _ & Hq).
  destruct (Hq 100) as [Hr Hp]; [reflexivity | vm_compute; discriminate |].
  split; [exact Hr|]. split; [exact Hp | reflexivity].
Defined.

(** ** Unbounded durations in published metrics and in the report *)

(** [publish_metrics_to_cloudwatch] never hands an infinite value to
    CloudWatch. *)
Lemma published_values_finite
  (postgres_rpo redis_rpo : minutes) (s : replication_status) (hs : Q) (m : metric) :
  In m (publish_metrics_to_cloudwatch postgres_rpo redis_rpo s hs) ->
  Value m <> Inf.
Proof.
  unfold publish_metrics_to_cloudwatch.
  destruct postgres_rpo, redis_rpo, (lag_minutes s); cbn;
    intros H; repeat (destruct H as [<- | H]; [discriminate|]); contradiction.
Qed.

(** C8 (code vs. claim). The PostgreSQL test of a run whose recovery-point
    lookup raises records [timedelta.max] as its RPO; with a second result
    whose RPO is 30 minutes, the report's [avg_rpo_minutes] is
    [(timedelta.max in minutes + 30) / 2], above 10^11 minutes (binary64
    rounds it to 720000000015.0): the sentinel has entered the sum. *)
Theorem unbounded_rpo_enters_report_average :
  exists m_pg avg,
    test_postgresql_backup false false true false
      (Raise (ClientError "No PostgreSQL recovery points found"))
      0 1000000 2000000 3000000 = Ok m_pg /\
    recovery_point_objective m_pg = Some timedelta_max /\
    avg_rpo_minutes
      (analysis
         (_generate_test_report
            {| environment := "production";
               test_results :=
                 [ m_pg;
                   {| test_name := "redis_backup_recovery";
                      start_time := 3000000; end_time := 4000000;
                      result := PASSED; details := Checks [];
                      recovery_point_objective := Some 1800000000%Z;
                      recovery_time_objective := Some 1000000%Z |} ] |}))
    = Some avg /\
    avg == (total_minutes timedelta_max + 30) / 2 /\
    100000000000 < avg.
Proof.
  eexists. eexists. split; [reflexivity|]. split; [reflexivity|].
  split; [reflexivity|]. split; reflexivity.
Qed.

(** ** The orchestrator *)

Lemma TestResult_eqb_eq (a b : TestResult) : TestResult_eqb a b = true <-> a = b.
Proof. destruct a, b; cbn; split; intros H; try reflexivity; discriminate H. Qed.

Lemma run_one_test_snd (t0 t1 : datetime)
  (d : dict test_key TestMetrics) (l : list TestMetrics)
  (t : test_key * comp TestMetrics) :
  snd (run_one_test t0 t1 (d, l) t) = l ++ [recorded t0 t1 t].
Proof. destruct t as [k [m|e]]; reflexivity. Qed.

(** The loop appends exactly one entry per test, in order, whatever the
    tests do. *)
Lemma run_tests_loop_test_results (t0 t1 : datetime)
  (tests : list (test_key * comp TestMetrics)) :
  forall d l,
    snd (run_tests_loop t0 t1 tests (d, l)) = l ++ map (recorded t0 t1) tests.
Proof.
  unfold run_tests_loop.
  induction tests as [|t rest IH]; intros d l; cbn [fold_left map].
  - now rewrite app_nil_r.
  - destruct (run_one_test t0 t1 (d, l) t) as [d' l'] eqn:E.
    rewrite IH. pose proof (run_one_test_snd t0 t1 d l t) as H.
    rewrite E in H. cbn in H. subst l'. now rewrite <- app_assoc.
Qed.

Lemma recorded_fails (t0 t1 : datetime) (t : test_key * comp TestMetrics) :
  fails (snd t) = true -> result (recorded t0 t1 t) = FAILED.
Proof.
  destruct t as [k [m|e]]; cbn; [|reflexivity].
  apply TestResult_eqb_eq.
Qed.

Lemma failed_tests_nonempty (t0 t1 : datetime)
  (tests : list (test_key * comp TestMetrics)) :
  existsb (fun t => fails (snd t)) tests = true ->
  failed_tests (map (recorded t0 t1) tests) <> [].
Proof.
  induction tests as [|t rest IH]; cbn; [discriminate|].
  intros H. apply orb_true_iff in H as [H|H].
  - apply (recorded_fails t0 t1) in H. rewrite H. cbn. discriminate.
  - destruct (TestResult_eqb _ _); [discriminate|]. now apply IH.
Qed.

(** The returned dict has, under each configured key, the entry recorded for
    that test. *)
Lemma results_cover_configured (self : framework) (f : test_funcs)
  (t0 t1 : datetime) (l : list TestMetrics) (k : test_key) (t : comp TestMetrics) :
  In (k, t) (configured_tests self f) ->
  dict_get (fst (run_tests_loop t0 t1 (configured_tests self f) ([], l))) k
  = Some (recorded t0 t1 (k, t)).
Proof.
  unfold configured_tests, run_tests_loop.
  destruct f as [a b c d]. cbn [run_postgresql_backup run_redis_backup
    run_s3_backup run_disaster_recovery_failover].
  destruct (String.eqb (environment self) "production"); cbn [app In];
    intros H; repeat (destruct H as [H|H]; [injection H as <- <-|]);
    try contradiction;
    destruct a, b, c; try destruct d; reflexivity.
Qed.

(** C9. When at least one configured test fails or raises, [run_all_tests]
    still records one entry per configured test, in order (nothing is
    skipped after the failure), the returned dict and the report hold an
    entry for every configured test, the failing tests are recorded FAILED,
    the notification is an ALERT, and [main] exits with status 1 having
    produced that output. *)
Theorem failed_run_is_complete_and_exits_nonzero
  (env : string) (f : test_funcs) (t0 t1 : datetime)
  (Hfail : existsb (fun t => fails (snd t))
             (configured_tests {| environment := env; test_results := [] |} f) = true) :
  let configured := configured_tests {| environment := env; test_results := [] |} f in
  exists out,
    main (Ok env) f t0 t1 = (1%Z, Some out) /\
    test_results (self_after out) = map (recorded t0 t1) configured /\
    tests (generated_report out)
      = map (fun t => make_test_data (recorded t0 t1 t)) configured /\
    total_tests (summary (generated_report out)) = List.length configured /\
    (forall k t, In (k, t) configured ->
       dict_get (results out) k = Some (recorded t0 t1 (k, t))) /\
    (forall t, In t configured -> fails (snd t) = true ->
       result (recorded t0 t1 t) = FAILED) /\
    (1 <= failed (summary (generated_report out)))%nat /\
    subject_tag (sent_notification out) = "ALERT".
Proof.
  intros configured.
  pose proof (run_tests_loop_test_results t0 t1 configured [] []) as Hl.
  pose proof (fun k t => results_cover_configured
                {| environment := env; test_results := [] |} f t0 t1 [] k t) as Hd.
  pose proof (failed_tests_nonempty t0 t1 configured Hfail) as Hne.
  fold configured in Hd.
  unfold main, run_all_tests.
  cbn [environment test_results]. fold configured.
  destruct (run_tests_loop t0 t1 configured ([], [])) as [res trs] eqn:E.
  assert (Htrs : trs = map (recorded t0 t1) configured).
  { change trs with (snd (res, trs)). rewrite <- E. exact Hl. }
  subst trs.
  assert (Hd' : forall k t, In (k, t) configured ->
                  dict_get res k = Some (recorded t0 t1 (k, t))).
  { intros k t Hin. exact (Hd k t Hin). }
  cbn [self_after test_results].
  destruct (failed_tests (map (recorded t0 t1) configured)) as [|m ms] eqn:Ef;
    [contradiction|].
  eexists. split; [reflexivity|].
  cbn [self_after generated_report sent_notification results
       _generate_test_report _send_notifications summary tests total_tests
       failed subject_tag test_results].
  repeat split.
  - now rewrite map_map.
  - now rewrite length_map.
  - exact Hd'.
  - intros t _. apply recorded_fails.
  - unfold count_result. fold (failed_tests (map (recorded t0 t1) configured)).
    rewrite Ef. cbn. lia.
  - rewrite Ef. reflexivity.
Qed.

Lemma failed_run_is_complete_and_exits_nonzero_witness :
  exists out,
    main (Ok "staging")
      {| run_postgresql_backup := Raise (ClientError "AccessDenied");
         run_redis_backup :=
           Ok {| test_name := "redis_backup_recovery";
                 start_time := 0; end_time := 1000000;
                 result := PASSED; details := Checks [];
                 recovery_point_objective := Some 1800000000%Z;
                 recovery_time_objective := Some 1000000%Z |};
         run_s3_backup :=
           Ok {| test_name := "s3_backup";
                 start_time := 1000000; end_time := 2000000;
                 result := PASSED; details := Checks [];
                 recovery_point_objective := None;
                 recovery_time_objective := None |};
         run_disaster_recovery_failover := Raise (ClientError "unused") |}
      5 6 = (1%Z, Some out) /\
    List.length (test_results (self_after out)) = 3%nat.
Proof.
  destruct (failed_run_is_complete_and_exits_nonzero "staging"
      {| run_postgresql_backup := Raise (ClientError "AccessDenied");
         run_redis_backup :=
           Ok {| test_name := "redis_backup_recovery";
                 start_time := 0; end_time := 1000000;
                 result := PASSED; details := Checks [];
                 recovery_point_objective := Some 1800000000%Z;
                 recovery_time_objective := Some 1000000%Z |};
         run_s3_backup :=
           Ok {| test_name := "s3_backup";
                 start_time := 1000000; end_time := 2000000;
                 result := PASSED; details := Checks [];
                 recovery_point_objective := None;
                 recovery_time_objective := None |};
         run_disaster_recovery_failover := Raise (ClientError "unused") |}
      5 6) as (out & Hmain & Htr & _); [reflexivity|].
  exists out. split; [exact Hmain|]. rewrite Htr. reflexivity.
Defined.

(** * Further properties of the monitor Lambda *)

(** ** Which backup the RPO is measured from *)

Lemma find_completed_skips_pending (pending : list recovery_point)
  (rp : recovery_point) (rest : list recovery_point) :
  forallb is_pending pending = true ->
  Status rp = Some "COMPLETED" ->
  find_completed (pending ++ rp :: rest) = Ok (Some rp).
Proof.
  intros Hp Hrp. induction pending as [|x xs IH]; cbn.
  - rewrite Hrp. reflexivity.
  - cbn in Hp. apply andb_true_iff in Hp as [Hx Hxs].
    unfold is_pending in Hx. destruct (Status x) as [st|]; [|discriminate].
    cbn. apply negb_true_iff in Hx. rewrite Hx. now apply IH.
Qed.

(** X1. [monitor_postgresql_rpo] measures the RPO from the first recovery
    point, in listing order, whose status is COMPLETED: the entries before it
    only have to be readable and not completed, and the entries after it
    (newer or older, completed or not) have no influence. *)
Theorem postgresql_rpo_from_first_completed
  (pending : list recovery_point) (rp : recovery_point)
  (rest : list recovery_point) (t now : datetime)
  (Hpending : forallb is_pending pending = true)
  (Hstatus : Status rp = Some "COMPLETED")
  (Hdate : CreationDate rp = Some t) :
  monitor_postgresql_rpo (listing (pending ++ rp :: rest)) now
  = Ok (Fin (total_minutes (now - t))).
Proof.
  unfold monitor_postgresql_rpo, monitor_postgresql_rpo_body, listing.
  cbn [bind getitem RecoveryPoints].
  rewrite (find_completed_skips_pending pending rp rest Hpending Hstatus).
  destruct (pending ++ rp :: rest) eqn:E.
  - destruct pending; discriminate E.
  - cbn. rewrite Hdate. reflexivity.
Qed.

Lemma postgresql_rpo_from_first_completed_witness :
  monitor_postgresql_rpo
    (listing [ {| Status := Some "FAILED"; CreationDate := Some 900%Z |};
               completed_at 100; completed_at 500 ]) 1000
  = Ok (Fin (total_minutes (1000 - 100))).
Proof.
  apply (postgresql_rpo_from_first_completed
           [ {| Status := Some "FAILED"; CreationDate := Some 900%Z |} ]
           (completed_at 100) [completed_at 500] 100 1000); reflexivity.
Defined.

Lemma find_latest_available_spec (snaps : list snapshot) :
  forallb well_formed_snapshot snaps = true ->
  forall acc : option snapshot,
    (forall l, acc = Some l -> exists tl, SnapshotCreateTime l = Some tl) ->
    exists r,
      find_latest_available snaps acc = Ok r /\
      match r with
      | None => acc = None /\ available_times snaps = []
      | Some s =>
          exists t,
            SnapshotCreateTime s = Some t /\
            (snapshot_time_of acc = Some t \/ In t (available_times snaps)) /\
            (forall t', In t' (available_times snaps) -> (t' <= t)%Z) /\
            (forall tl, snapshot_time_of acc = Some tl -> (tl <= t)%Z)
      end.
Proof.
  induction snaps as [|s rest IH]; cbn [find_latest_available forallb available_times];
    intros Hwf acc Hacc.
  - exists acc. split; [reflexivity|].
    destruct acc as [l|]; [|now split].
    destruct (Hacc l eq_refl) as [tl Htl]. exists tl. cbn.
    repeat split; auto; try contradiction.
    intros tl' H. rewrite Htl in H. injection H as <-. lia.
  - apply andb_true_iff in Hwf as [Hs Hrest].
    unfold well_formed_snapshot in Hs. unfold is_available.
    destruct (SnapshotStatus s) as [st|] eqn:Est; [|discriminate].
    destruct (SnapshotCreateTime s) as [t|] eqn:Et; [|discriminate].
    cbn [getitem bind].
    destruct (String.eqb st "available") eqn:Eav.
    + destruct acc as [l|].
      * destruct (Hacc l eq_refl) as [tl Htl]. rewrite Htl. cbn [getitem bind].
        destruct (Z.ltb_spec tl t) as [Hlt|Hge].
        -- destruct (IH Hrest (Some s)) as (r & Hr & Hspec).
           { intros l' H. injection H as <-. now exists t. }
           exists r. split; [exact Hr|].
           destruct r as [s'|]; [|destruct Hspec; discriminate].
           destruct Hspec as (t1 & Ht1 & Hin & Hmax & Hacc1).
           cbn [snapshot_time_of] in *. rewrite Et in Hin, Hacc1.
           specialize (Hacc1 t eq_refl).
           exists t1. repeat split; auto.
           ++ destruct Hin as [H|H]; [injection H as <-|]; right; cbn; auto.
           ++ intros t' [<-|H]; auto.
           ++ intros tl' H. rewrite Htl in H. injection H as <-. lia.
        -- destruct (IH Hrest (Some l)) as (r & Hr & Hspec).
           { intros l' H. injection H as <-. now exists tl. }
           exists r. split; [exact Hr|].
           destruct r as [s'|]; [|destruct Hspec; discriminate].
           destruct Hspec as (t1 & Ht1 & Hin & Hmax & Hacc1).
           cbn [snapshot_time_of] in *. rewrite Htl in Hin, Hacc1.
           specialize (Hacc1 tl eq_refl).
           exists t1. repeat split; auto.
           ++ destruct Hin as [H|H]; [left; now rewrite Htl|right; cbn; auto].
           ++ intros t' [<-|H]; [lia|auto].
           ++ intros tl' H. rewrite Htl in H. injection H as <-. lia.
      * destruct (IH Hrest (Some s)) as (r & Hr & Hspec).
        { intros l' H. injection H as <-. now exists t. }
        exists r. split; [exact Hr|].
        destruct r as [s'|]; [|destruct Hspec; discriminate].
        destruct Hspec as (t1 & Ht1 & Hin & Hmax & Hacc1).
        cbn [snapshot_time_of] in *. rewrite Et in Hin, Hacc1.
        specialize (Hacc1 t eq_refl).
        exists t1. repeat split; auto.
        -- destruct Hin as [H|H]; [injection H as <-|]; right; cbn; auto.
        -- intros t' [<-|H]; auto.
        -- discriminate.
    + destruct (IH Hrest acc Hacc) as (r & Hr & Hspec).
      exists r. split; [exact Hr|exact Hspec].
Qed.

(** X2. On a listing whose snapshots all carry a status and a creation time,
    with at least one of them available, [monitor_redis_rpo] measures the RPO
    from the newest available snapshot, wherever it stands in the listing. *)
Theorem redis_rpo_from_latest_available
  (snaps : list snapshot) (now : datetime)
  (Hwf : forallb well_formed_snapshot snaps = true)
  (Hsome : available_times snaps <> []) :
  exists t,
    In t (available_times snaps) /\
    (forall t', In t' (available_times snaps) -> (t' <= t)%Z) /\
    monitor_redis_rpo (snapshot_listing snaps) now
    = Ok (Fin (total_minutes (now - t))).
Proof.
  destruct (find_latest_available_spec snaps Hwf None) as (r & Hr & Hspec);
    [discriminate|].
  destruct r as [s|]; [|destruct Hspec; contradiction].
  destruct Hspec as (t & Ht & [Hin|Hin] & Hmax & _); [discriminate Hin|].
  exists t. repeat split; auto.
  unfold monitor_redis_rpo, monitor_redis_rpo_body, snapshot_listing.
  cbn [bind getitem Snapshots].
  destruct snaps as [|s0 rest]; [contradiction|].
  rewrite Hr. cbn. rewrite Ht. reflexivity.
Qed.

Lemma redis_rpo_from_latest_available_witness :
  monitor_redis_rpo
    (snapshot_listing
       [ {| SnapshotStatus := Some "available"; SnapshotCreateTime := Some 100%Z |};
         {| SnapshotStatus := Some "creating"; SnapshotCreateTime := Some 900%Z |};
         {| SnapshotStatus := Some "available"; SnapshotCreateTime := Some 700%Z |} ])
    1000
  = Ok (Fin (total_minutes (1000 - 700))).
Proof.
  destruct (redis_rpo_from_latest_available
       [ {| SnapshotStatus := Some "available"; SnapshotCreateTime := Some 100%Z |};
         {| SnapshotStatus := Some "creating"; SnapshotCreateTime := Some 900%Z |};
         {| SnapshotStatus := Some "available"; SnapshotCreateTime := Some 700%Z |} ]
       1000) as (t & Hin & Hmax & H); [reflexivity | discriminate |].
  cbn in Hin. destruct Hin as [<- | [<- | []]].
  - exfalso. assert (H700 : (700 <= 100)%Z) by (apply Hmax; cbn; auto). lia.
  - exact H.
Defined.

(** ** What the replication monitor can return *)

(** X3. Every record [monitor_cross_region_replication] returns is of one of
    three shapes: HEALTHY with a finite lag below 60, LAGGING with a finite
    lag of at least 60, or one of the three failure statuses with lag [inf]
    and no backup times. *)
Theorem replication_status_shapes
  (primary_call dr_call : comp backup_response) (s : replication_status)
  (Hs : monitor_cross_region_replication primary_call dr_call = Ok s) :
  (status s = "HEALTHY" /\ exists lag, lag_minutes s = Fin lag /\ lag < 60) \/
  (status s = "LAGGING" /\ exists lag, lag_minutes s = Fin lag /\ 60 <= lag) \/
  ((status s = "NO_PRIMARY_BACKUPS" \/ status s = "NO_DR_BACKUPS" \/ status s = "ERROR") /\
   lag_minutes s = Inf /\ primary_backup_time s = None /\ dr_backup_time s = None).
Proof.
  unfold monitor_cross_region_replication, monitor_cross_region_replication_body in Hs.
  assert (Hfail : forall st,
             st = "NO_PRIMARY_BACKUPS" \/ st = "NO_DR_BACKUPS" \/ st = "ERROR" ->
             s = failure_status st ->
             (status s = "HEALTHY" /\ exists lag, lag_minutes s = Fin lag /\ lag < 60) \/
             (status s = "LAGGING" /\ exists lag, lag_minutes s = Fin lag /\ 60 <= lag) \/
             ((status s = "NO_PRIMARY_BACKUPS" \/ status s = "NO_DR_BACKUPS"
               \/ status s = "ERROR") /\
              lag_minutes s = Inf /\ primary_backup_time s = None
              /\ dr_backup_time s = None)).
  { intros st Hst ->. right. right. cbn. auto. }
  destruct primary_call as [[[[|p ps]|]]|e]; cbn in Hs;
    try (injection Hs as <-; eapply Hfail; [|reflexivity]; auto; fail).
  all: destruct dr_call as [[[[|d ds]|]]|e]; cbn in Hs;
    try (injection Hs as <-; eapply Hfail; [|reflexivity]; auto; fail).
  destruct (CreationDate p) as [pt|]; cbn in Hs;
    [|injection Hs as <-; eapply Hfail; [|reflexivity]; auto].
  destruct (CreationDate d) as [dt|]; cbn in Hs;
    [|injection Hs as <-; eapply Hfail; [|reflexivity]; auto].
  injection Hs as <-. cbn [status lag_minutes].
  destruct (Qle_bool 60 (total_minutes (dt - pt))) eqn:E; cbn [negb].
  - right. left. split; [reflexivity|]. eexists. split; [reflexivity|].
    now apply Qle_bool_iff.
  - left. split; [reflexivity|]. eexists. split; [reflexivity|].
    apply Qnot_le_lt. intros H. apply Qle_bool_iff in H. congruence.
Qed.

Lemma replication_status_shapes_witness :
  status (failure_status "NO_DR_BACKUPS") = "NO_DR_BACKUPS" /\
  lag_minutes (failure_status "NO_DR_BACKUPS") = Inf.
Proof.
  destruct (replication_status_shapes (listing [completed_at 0]) (listing [])
              (failure_status "NO_DR_BACKUPS") eq_refl)
    as [[H _] | [[H _] | (_ & H & _)]]; try discriminate H.
  split; [reflexivity | exact H].
Defined.

(** ** Range and shape of the score *)

Lemma health_score_nonneg_witness :
  exists v,
    calculate_backup_health_score (Fin (-60)) Inf (failure_status "ERROR") 60 = Ok v /\
    0 <= v.
Proof.
  eexists. split; [reflexivity|].
  apply (health_score_nonneg (Fin (-60)) Inf (failure_status "ERROR") 60).
  reflexivity.
Defined.

Lemma Qdiv_nonneg (q : Q) (thr : Z) : (0 < thr)%Z -> 0 <= q -> 0 <= q / inject_Z thr.
Proof.
  intros Hthr Hq.
  apply Qle_shift_div_l; [unfold Qlt, inject_Z; cbn; lia | lra].
Qed.

Lemma rpo_score_le_100 (x : minutes) (thr : Z) (v : Q) :
  (0 < thr)%Z -> nonneg_minutes x -> rpo_score x thr = Ok v -> v <= 100.
Proof.
  intros Hthr Hx. destruct x as [q|]; unfold rpo_score; cbn [nonneg_minutes] in Hx.
  - destruct (int_too_large thr); [discriminate|].
    destruct (thr =? 0)%Z; [discriminate|]. intros H. injection H as <-.
    pose proof (Qdiv_nonneg q thr Hthr Hx).
    rewrite pymax_Qmax. apply Q.max_lub; lra.
  - intros H. injection H as <-. lra.
Qed.

Lemma replication_score_le_100 (s : replication_status) :
  nonneg_minutes (lag_minutes s) -> replication_score s <= 100.
Proof.
  intros Hlag. unfold replication_score.
  destruct (String.eqb (status s) "HEALTHY"); [lra|].
  destruct (String.eqb (status s) "LAGGING"); [|lra].
  destruct (lag_minutes s) as [lag|]; cbn in *; [|lra].
  rewrite pymax_Qmax. apply Q.max_lub; [lra|].
  unfold Qdiv. setoid_replace (/ 60) with (1 # 60) by reflexivity. lra.
Qed.

(** The two ways the function returns: through its handler, with 0, when a
    score computation raised; otherwise with the weighted sum. *)
Lemma health_score_cases
  (p r : minutes) (s : replication_status) (thr : Z) (v : Q) :
  calculate_backup_health_score p r s thr = Ok v ->
  ((exists e, rpo_score p thr = Raise e \/ rpo_score r thr = Raise e) /\ v = 0) \/
  (exists ps rs,
     rpo_score p thr = Ok ps /\ rpo_score r thr = Ok rs /\
     v = ps * 0.4 + rs * 0.3 + replication_score s * 0.3).
Proof.
  unfold calculate_backup_health_score, calculate_backup_health_score_body.
  destruct (rpo_score p thr) as [ps|e] eqn:Ep; cbn [bind try_except].
  - destruct (rpo_score r thr) as [rs|e] eqn:Er; cbn [bind try_except];
      intros H; injection H as <-.
    + right. exists ps, rs. auto.
    + left. split; [exists e; auto | reflexivity].
  - intros H. injection H as <-. left. split; [exists e; auto | reflexivity].
Qed.

(** X5. With a positive threshold and durations that are non-negative or
    [inf] (the RPOs and the replication lag), the health score lies in
    [0, 100]. *)
Theorem health_score_in_range
  (p r : minutes) (s : replication_status) (thr : Z) (v : Q)
  (Hthr : (0 < thr)%Z)
  (Hp : nonneg_minutes p) (Hr : nonneg_minutes r)
  (Hlag : nonneg_minutes (lag_minutes s))
  (Hv : calculate_backup_health_score p r s thr = Ok v) :
  0 <= v /\ v <= 100.
Proof.
  destruct (health_score_cases p r s thr v Hv)
    as [[_ ->] | (ps & rs & Eps & Ers & ->)]; [split; lra|].
  pose proof (rpo_score_nonneg _ _ _ Eps).
  pose proof (rpo_score_nonneg _ _ _ Ers).
  pose proof (rpo_score_le_100 _ _ _ Hthr Hp Eps).
  pose proof (rpo_score_le_100 _ _ _ Hthr Hr Ers).
  pose proof (replication_score_nonneg s).
  pose proof (replication_score_le_100 s Hlag).
  split; lra.
Qed.

Lemma health_score_in_range_witness :
  exists v,
    calculate_backup_health_score (Fin 30) Inf
      {| status := "HEALTHY"; lag_minutes := Fin 5;
         primary_backup_time := None; dr_backup_time := None |} 60 = Ok v /\
    0 <= v /\ v <= 100.
Proof.
  eexists. split; [reflexivity|].
  apply (health_score_in_range (Fin 30) Inf
           {| status := "HEALTHY"; lag_minutes := Fin 5;
              primary_backup_time := None; dr_backup_time := None |} 60);
    cbn; try lia; try lra; try exact I; reflexivity.
Defined.

Lemma Qdiv_le_compat (p q : Q) (thr : Z) :
  (0 < thr)%Z -> p <= q -> p / inject_Z thr <= q / inject_Z thr.
Proof.
  intros Hthr Hpq. unfold Qdiv. apply Qmult_le_compat_r; [exact Hpq|].
  apply Qinv_le_0_compat. unfold Qle, inject_Z; cbn; lia.
Qed.

Lemma Qdiv_threshold (q : Q) (thr : Z) :
  (0 < thr)%Z ->
  (inject_Z thr <= q -> 1 <= q / inject_Z thr) /\
  (q < inject_Z thr -> q / inject_Z thr < 1).
Proof.
  intros Hthr.
  assert (Ht : 0 < inject_Z thr) by (unfold Qlt, inject_Z; cbn; lia).
  split; intros H.
  - apply Qle_shift_div_l; [exact Ht | lra].
  - apply Qlt_shift_div_r; [exact Ht | lra].
Qed.

(** X6. For a positive threshold that a float holds exactly (at most 2^53,
    so that converting it neither overflows nor rounds) the per-resource RPO
    score does not increase when the RPO grows, is 100 at RPO 0, is positive
    below the threshold and is exactly 0 from the threshold on. *)
Theorem rpo_score_antitone
  (p q : Q) (thr : Z) (Hthr : (0 < thr)%Z) (Hexact : (thr <= 2 ^ 53)%Z)
  (Hpq : p <= q) :
  exists vp vq v0,
    rpo_score (Fin p) thr = Ok vp /\
    rpo_score (Fin q) thr = Ok vq /\
    rpo_score (Fin 0) thr = Ok v0 /\
    vq <= vp /\
    v0 == 100 /\
    (q < inject_Z thr -> 0 < vq) /\
    (inject_Z thr <= q -> vq = 0).
Proof.
  assert (Hb : (Z.abs thr < float_overflow_bound)%Z).
  { pose proof exact_int_lt_overflow_bound. lia. }
  rewrite !rpo_score_finite by (assumption || lia).
  do 3 eexists. repeat split.
  - rewrite !pymax_Qmax. pose proof (Qdiv_le_compat p q thr Hthr Hpq).
    apply Q.max_le_compat_l. lra.
  - rewrite pymax_Qmax. unfold Qdiv. rewrite Qmult_0_l. reflexivity.
  - intros H. apply (Qdiv_threshold q thr Hthr) in H.
    rewrite pymax_Qmax. apply Q.max_lt_iff. right. lra.
  - intros H. apply (Qdiv_threshold q thr Hthr) in H.
    apply pymax_nonpos. lra.
Qed.

Lemma rpo_score_antitone_witness :
  exists vp vq,
    rpo_score (Fin 15) 60 = Ok vp /\ rpo_score (Fin 90) 60 = Ok vq /\
    vq <= vp /\ vq = 0.
Proof.
  destruct (rpo_score_antitone 15 90 60) as (vp & vq & v0 & Hp & Hq & _ & Hle & _ & _ & Hz);
    [lia | vm_compute; discriminate | vm_compute; discriminate |].
  exists vp, vq. repeat split; auto.
  apply Hz. vm_compute. discriminate.
Defined.

(** X7. With [rpo_threshold = 0] any finite RPO makes the division raise;
    the handler of [calculate_backup_health_score] then returns 0, whatever
    the other inputs are -- also for an RPO of 0 and a HEALTHY replication. *)
Theorem zero_threshold_scores_zero
  (q : Q) (other : minutes) (s : replication_status) :
  calculate_backup_health_score (Fin q) other s 0 = Ok 0 /\
  calculate_backup_health_score Inf (Fin q) s 0 = Ok 0 /\
  calculate_backup_health_score Inf Inf s 0
  = Ok (0 * 0.4 + 0 * 0.3 + replication_score s * 0.3).
Proof. repeat split; reflexivity. Qed.

(** X24. With a threshold too large to convert to a float (magnitude from
    [2^1024 - 2^970] on) any finite RPO makes the division raise
    OverflowError; the handler of [calculate_backup_health_score] then
    returns 0, whatever the other inputs are.  With both RPOs [inf] no
    division happens and only the replication component counts. *)
Theorem huge_threshold_scores_zero
  (q : Q) (other : minutes) (s : replication_status) (thr : Z)
  (Hhuge : (float_overflow_bound <= Z.abs thr)%Z) :
  calculate_backup_health_score (Fin q) other s thr = Ok 0 /\
  calculate_backup_health_score Inf (Fin q) s thr = Ok 0 /\
  calculate_backup_health_score Inf Inf s thr
  = Ok (0 * 0.4 + 0 * 0.3 + replication_score s * 0.3).
Proof.
  unfold calculate_backup_health_score, calculate_backup_health_score_body.
  rewrite !(rpo_score_overflow q thr Hhuge). repeat split; reflexivity.
Qed.

Lemma huge_threshold_scores_zero_witness :
  calculate_backup_health_score (Fin 0) (Fin 0)
    {| status := "HEALTHY"; lag_minutes := Fin 0;
       primary_backup_time := None; dr_backup_time := None |} (2 ^ 1024)
  = Ok 0.
Proof.
  refine (proj1 (huge_threshold_scores_zero 0 (Fin 0)
                   {| status := "HEALTHY"; lag_minutes := Fin 0;
                      primary_backup_time := None; dr_backup_time := None |}
                   (2 ^ 1024) _)).
  vm_compute. discriminate.
Defined.

(** ** Published metrics *)

(** X8. [publish_metrics_to_cloudwatch] always publishes the health score and
    the numeric replication status, publishes each of the three durations
    exactly when it is finite, and so hands CloudWatch between two and five
    values, none of them infinite. *)
Theorem published_metrics_shape
  (postgres_rpo redis_rpo : minutes) (s : replication_status) (hs : Q) :
  let ms := publish_metrics_to_cloudwatch postgres_rpo redis_rpo s hs in
  let has name := existsb (fun m => String.eqb (MetricName m) name) ms in
  let count (x : minutes) := if is_inf x then 0%nat else 1%nat in
  (forall m, In m ms -> Value m <> Inf) /\
  In {| MetricName := "BackupHealthScore"; Value := Fin hs |} ms /\
  In {| MetricName := "ReplicationStatus";
        Value := Fin (replication_status_numeric (status s)) |} ms /\
  has "PostgreSQLRPO" = negb (is_inf postgres_rpo) /\
  has "RedisRPO" = negb (is_inf redis_rpo) /\
  has "ReplicationLag" = negb (is_inf (lag_minutes s)) /\
  List.length ms
  = (count postgres_rpo + count redis_rpo + count (lag_minutes s) + 2)%nat.
Proof.
  cbn zeta. split; [intros m; apply published_values_finite|].
  unfold publish_metrics_to_cloudwatch.
  destruct postgres_rpo, redis_rpo, (lag_minutes s); cbn;
    repeat split; auto 10.
Qed.

(** ** When the monitor alerts *)

Lemma gt_minutes_false_iff (x : minutes) (c : Q) :
  gt_minutes x c = false <-> within_limit x c.
Proof.
  destruct x as [q|]; cbn.
  - rewrite negb_false_iff. apply Qle_bool_iff.
  - split; [discriminate | contradiction].
Qed.

Lemma snoc_not_nil {A} (l : list A) (a : A) : l ++ [a] <> [].
Proof. destruct l; discriminate. Qed.

(** X9. [send_alerts_if_needed] stays silent exactly when the PostgreSQL RPO
    is within [rpo_threshold], the Redis RPO within 1440 minutes, the
    replication status is none of the three failure statuses, a LAGGING
    replication lags by at most 120 minutes, and the health score is at
    least 80. *)
Theorem no_alert_iff
  (postgres_rpo redis_rpo : minutes) (s : replication_status)
  (rpo_threshold : Z) (hs : Q) :
  send_alerts_if_needed postgres_rpo redis_rpo s rpo_threshold hs = [] <->
  within_limit postgres_rpo (inject_Z rpo_threshold) /\
  within_limit redis_rpo 1440 /\
  status s <> "NO_PRIMARY_BACKUPS" /\ status s <> "NO_DR_BACKUPS" /\
  status s <> "ERROR" /\
  (status s = "LAGGING" -> within_limit (lag_minutes s) 120) /\
  80 <= hs.
Proof.
  rewrite <- !gt_minutes_false_iff, <- Qle_bool_iff.
  unfold send_alerts_if_needed.
  change (inject_Z redis_rpo_threshold) with (1440 : Q).
  cbn [existsb].
  destruct (gt_minutes postgres_rpo (inject_Z rpo_threshold));
    destruct (gt_minutes redis_rpo 1440);
    destruct (String.eqb_spec (status s) "NO_PRIMARY_BACKUPS") as [E1|E1];
    destruct (String.eqb_spec (status s) "NO_DR_BACKUPS") as [E2|E2];
    destruct (String.eqb_spec (status s) "ERROR") as [E3|E3];
    destruct (String.eqb_spec (status s) "LAGGING") as [E4|E4];
    destruct (gt_minutes (lag_minutes s) 120);
    destruct (Qle_bool 80 hs);
    cbn [orb andb negb app];
    (split;
     [ intros H; try discriminate H; repeat split; auto; congruence
     | intros (H1 & H2 & H3 & H4 & H5 & H6 & H7);
       try reflexivity; try discriminate; try contradiction;
       try discriminate (H6 E4) ]).
Qed.

Lemma low_score_alert_sent
  (postgres_rpo redis_rpo : minutes) (s : replication_status)
  (rpo_threshold : Z) (hs : Q) :
  hs < 80 ->
  In (LowHealthScore hs)
     (send_alerts_if_needed postgres_rpo redis_rpo s rpo_threshold hs).
Proof.
  intros H. unfold send_alerts_if_needed.
  destruct (Qle_bool 80 hs) eqn:E; [apply Qle_bool_iff in E; lra|].
  cbn [negb]. apply in_or_app. right. now left.
Qed.

(** A float above a positive threshold: the threshold is then below the
    largest float, so converting it does not overflow, and the score is 0. *)
Lemma rpo_score_zero_when_exceeded (x : minutes) (thr : Z) :
  (0 < thr)%Z -> is_float x -> gt_minutes x (inject_Z thr) = true ->
  rpo_score x thr = Ok 0.
Proof.
  intros Hthr Hfl Hgt. destruct x as [q|]; [|reflexivity].
  cbn in Hgt. apply negb_true_iff in Hgt.
  assert (Hq : inject_Z thr < q).
  { apply Qnot_le_lt. intros H. apply Qle_bool_iff in H. congruence. }
  cbn [is_float] in Hfl. destruct Hfl as [_ Hmax].
  assert (Hlt : (thr < float_max)%Z).
  { rewrite Zlt_Qlt. eapply Qlt_le_trans; eassumption. }
  pose proof float_max_lt_overflow_bound.
  rewrite rpo_score_finite by lia. f_equal. apply pymax_nonpos.
  apply Qlt_le_weak in Hq.
  apply (Qdiv_threshold q thr Hthr) in Hq. lra.
Qed.

(** X10. With a positive threshold, whenever the PostgreSQL RPO alert fires
    (the RPO, a float, is above the threshold or is [inf]) the PostgreSQL
    component of the score is 0, the health score is at most 60 and the
    low-health-score alert is sent as well. *)
Theorem postgres_breach_forces_low_score_alert
  (postgres_rpo redis_rpo : minutes) (s : replication_status)
  (rpo_threshold : Z) (v : Q)
  (Hthr : (0 < rpo_threshold)%Z)
  (Hfloat : is_float postgres_rpo)
  (Hbreach : gt_minutes postgres_rpo (inject_Z rpo_threshold) = true)
  (Hredis : nonneg_minutes redis_rpo)
  (Hlag : nonneg_minutes (lag_minutes s))
  (Hv : calculate_backup_health_score postgres_rpo redis_rpo s rpo_threshold = Ok v) :
  rpo_score postgres_rpo rpo_threshold = Ok 0 /\
  v <= 60 /\
  In (PostgresRpoExceeded postgres_rpo rpo_threshold)
     (send_alerts_if_needed postgres_rpo redis_rpo s rpo_threshold v) /\
  In (LowHealthScore v)
     (send_alerts_if_needed postgres_rpo redis_rpo s rpo_threshold v).
Proof.
  pose proof (rpo_score_zero_when_exceeded _ _ Hthr Hfloat Hbreach) as Hz.
  assert (Hle : v <= 60).
  { destruct (health_score_cases _ _ _ _ _ Hv)
      as [[_ ->] | (ps & rs & Eps & Ers & ->)]; [lra|].
    rewrite Hz in Eps. injection Eps as <-.
    pose proof (rpo_score_le_100 _ _ _ Hthr Hredis Ers).
    pose proof (replication_score_le_100 s Hlag). lra. }
  repeat split; auto.
  - unfold send_alerts_if_needed. rewrite Hbreach. cbn [app].
    repeat (apply in_or_app; left).
    case_ifs; cbn; auto; try (apply in_or_app; left; cbn; auto).
  - apply low_score_alert_sent. lra.
Qed.

Lemma published_metrics_shape_witness :
  List.length (publish_metrics_to_cloudwatch Inf (Fin 12) (failure_status "ERROR") 30)
  = 3%nat /\
  forall m,
    In m (publish_metrics_to_cloudwatch Inf (Fin 12) (failure_status "ERROR") 30) ->
    Value m <> Inf.
Proof.
  destruct (published_metrics_shape Inf (Fin 12) (failure_status "ERROR") 30)
    as (Hfin & _ & _ & _ & _ & _ & Hlen).
  split; [exact Hlen | exact Hfin].
Defined.

Lemma no_alert_iff_witness :
  send_alerts_if_needed (Fin 30) (Fin 600)
    {| status := "LAGGING"; lag_minutes := Fin 90;
       primary_backup_time := None; dr_backup_time := None |} 60 85 = [].
Proof.
  apply (no_alert_iff (Fin 30) (Fin 600)
           {| status := "LAGGING"; lag_minutes := Fin 90;
              primary_backup_time := None; dr_backup_time := None |} 60 85).
  cbn. repeat split; try discriminate.
Defined.

Lemma postgres_breach_forces_low_score_alert_witness :
  exists v,
    calculate_backup_health_score (Fin 61) (Fin 0)
      {| status := "HEALTHY"; lag_minutes := Fin 0;
         primary_backup_time := None; dr_backup_time := None |} 60 = Ok v /\
    v <= 60 /\
    In (LowHealthScore v)
       (send_alerts_if_needed (Fin 61) (Fin 0)
          {| status := "HEALTHY"; lag_minutes := Fin 0;
             primary_backup_time := None; dr_backup_time := None |} 60 v).
Proof.
  eexists. split; [reflexivity|].
  destruct (postgres_breach_forces_low_score_alert (Fin 61) (Fin 0)
              {| status := "HEALTHY"; lag_minutes := Fin 0;
                 primary_backup_time := None; dr_backup_time := None |} 60
              (pymax 0 (100 - 61 / inject_Z 60 * 100) * 0.4
               + pymax 0 (100 - 0 / inject_Z 60 * 100) * 0.3 + 100 * 0.3))
    as (_ & Hle & _ & Hin);
    [lia | split; vm_compute; discriminate | reflexivity | cbn; lra | cbn; lra
    | reflexivity |].
  split; [exact Hle | exact Hin].
Defined.

(** X11. Whenever the replication monitor reports LAGGING, the replication
    component of the score is 0; with a positive threshold and RPOs that are
    non-negative or [inf] the health score is then at most 70, so the
    low-health-score alert is sent for every LAGGING replication, also when
    the lag is below the 120 minutes of the lag alert. *)
Theorem lagging_forces_low_score_alert
  (primary_call dr_call : comp backup_response) (s : replication_status)
  (postgres_rpo redis_rpo : minutes) (rpo_threshold : Z) (v : Q)
  (Hs : monitor_cross_region_replication primary_call dr_call = Ok s)
  (Hlagging : status s = "LAGGING")
  (Hthr : (0 < rpo_threshold)%Z)
  (Hp : nonneg_minutes postgres_rpo) (Hr : nonneg_minutes redis_rpo)
  (Hv : calculate_backup_health_score postgres_rpo redis_rpo s rpo_threshold = Ok v) :
  replication_score s = 0 /\
  v <= 70 /\
  In (LowHealthScore v)
     (send_alerts_if_needed postgres_rpo redis_rpo s rpo_threshold v).
Proof.
  pose proof (monitored_lagging_scores_zero _ _ _ Hs Hlagging) as Hz.
  assert (Hle : v <= 70).
  { destruct (health_score_cases _ _ _ _ _ Hv)
      as [[_ ->] | (ps & rs & Eps & Ers & ->)]; [lra|].
    pose proof (rpo_score_le_100 _ _ _ Hthr Hp Eps).
    pose proof (rpo_score_le_100 _ _ _ Hthr Hr Ers).
    rewrite Hz. lra. }
  repeat split; auto.
  apply low_score_alert_sent. lra.
Qed.

Lemma lagging_forces_low_score_alert_witness :
  exists s v,
    monitor_cross_region_replication
      (listing [completed_at 0]) (listing [completed_at 4200000000]) = Ok s /\
    calculate_backup_health_score (Fin 0) (Fin 0) s 60 = Ok v /\
    v <= 70 /\
    send_alerts_if_needed (Fin 0) (Fin 0) s 60 v = [LowHealthScore v].
Proof.
  eexists. eexists. split; [reflexivity|]. split; [reflexivity|].
  split; [|reflexivity].
  refine (proj1 (proj2 (lagging_forces_low_score_alert
            (listing [completed_at 0]) (listing [completed_at 4200000000])
            {| status := "LAGGING";
               lag_minutes := Fin (total_minutes (4200000000 - 0));
               primary_backup_time := Some 0%Z;
               dr_backup_time := Some 4200000000%Z |}
            (Fin 0) (Fin 0) 60 _ eq_refl eq_refl _ _ _ eq_refl)));
    [lia | cbn; lra | cbn; lra].
Defined.

(** ** The Lambda handler *)

Lemma monitors_return
  (probes : monitor_probes) (now_postgres now_redis : datetime) :
  exists p r s,
    monitor_postgresql_rpo (postgres_vault_listing probes) now_postgres = Ok p /\
    monitor_redis_rpo (redis_snapshot_listing probes) now_redis = Ok r /\
    monitor_cross_region_replication
      (primary_vault_listing probes) (dr_vault_listing probes) = Ok s.
Proof.
  assert (Hp : returns (monitor_postgresql_rpo (postgres_vault_listing probes) now_postgres))
    by (apply try_except_returns; intros _; now exists Inf).
  assert (Hr : returns (monitor_redis_rpo (redis_snapshot_listing probes) now_redis))
    by (apply try_except_returns; intros _; now exists Inf).
  assert (Hs : returns (monitor_cross_region_replication
                          (primary_vault_listing probes) (dr_vault_listing probes)))
    by (apply try_except_returns; intros _; now eexists).
  destruct Hp as [p Hp], Hr as [r Hr], Hs as [s Hs]. exists p, r, s. auto.
Qed.

Lemma health_score_returns
  (p r : minutes) (s : replication_status) (thr : Z) :
  returns (calculate_backup_health_score p r s thr).
Proof. apply try_except_returns. intros _. now exists 0. Qed.

(** X12. Once the thresholds are parsed and the clients are built, the
    handler answers 200 whatever the four probes do, and the body carries
    the three monitor results with the health score computed from them; it
    answers 500, publishing nothing and alerting nobody, exactly when that
    setup raises. *)
Theorem handler_status_code
  (setup : handler_setup) (probes : monitor_probes)
  (now_postgres now_redis : datetime) :
  let r := handler setup probes now_postgres now_redis in
  (forall thr rto u,
     rpo_threshold_minutes setup = Ok thr ->
     rto_threshold_minutes setup = Ok rto ->
     boto3_clients setup = Ok u ->
     statusCode r = 200%Z /\
     exists p rd s hs,
       monitor_postgresql_rpo (postgres_vault_listing probes) now_postgres = Ok p /\
       monitor_redis_rpo (redis_snapshot_listing probes) now_redis = Ok rd /\
       monitor_cross_region_replication
         (primary_vault_listing probes) (dr_vault_listing probes) = Ok s /\
       calculate_backup_health_score p rd s thr = Ok hs /\
       body r = MonitoringCompleted p rd s hs /\
       published r = publish_metrics_to_cloudwatch p rd s hs /\
       alerted r = if str_truthy (sns_topic_arn setup)
                   then send_alerts_if_needed p rd s thr hs else []) /\
  ((exists e, rpo_threshold_minutes setup = Raise e) \/
   (exists e, rto_threshold_minutes setup = Raise e) \/
   (exists e, boto3_clients setup = Raise e) ->
   statusCode r = 500%Z /\ published r = [] /\ alerted r = []) /\
  (statusCode r = 200%Z \/ statusCode r = 500%Z).
Proof.
  cbn zeta. unfold handler.
  destruct (monitors_return probes now_postgres now_redis) as (p & rd & s & Hp & Hr & Hs).
  rewrite Hp, Hr, Hs.
  split; [|split].
  - intros thr rto u -> -> ->. cbn [bind].
    destruct (health_score_returns p rd s thr) as [hs Hhs]. rewrite Hhs. cbn.
    split; [reflexivity|]. exists p, rd, s, hs. repeat split; auto.
  - intros [[e ->] | [[e ->] | [e ->]]].
    + cbn. auto.
    + destruct (rpo_threshold_minutes setup); cbn; auto.
    + destruct (rpo_threshold_minutes setup); cbn; auto.
      destruct (rto_threshold_minutes setup); cbn; auto.
  - destruct (rpo_threshold_minutes setup) as [thr|]; cbn; auto.
    destruct (rto_threshold_minutes setup); cbn; auto.
    destruct (boto3_clients setup); cbn; auto.
    destruct (health_score_returns p rd s thr) as [hs Hhs]. rewrite Hhs. cbn. auto.
Qed.

Lemma handler_status_code_witness :
  statusCode
    (handler {| rpo_threshold_minutes := Raise TypeError;
                rto_threshold_minutes := Ok 240%Z;
                sns_topic_arn := None;
                boto3_clients := Ok tt |}
             {| postgres_vault_listing := listing [];
                redis_snapshot_listing := snapshot_listing [];
                primary_vault_listing := listing [];
                dr_vault_listing := listing [] |} 0 0) = 500%Z.
Proof.
  destruct (handler_status_code
              {| rpo_threshold_minutes := Raise TypeError;
                 rto_threshold_minutes := Ok 240%Z;
                 sns_topic_arn := None;
                 boto3_clients := Ok tt |}
              {| postgres_vault_listing := listing [];
                 redis_snapshot_listing := snapshot_listing [];
                 primary_vault_listing := listing [];
                 dr_vault_listing := listing [] |} 0 0) as (_ & H & _).
  apply H. left. eexists. reflexivity.
Defined.

(** X13. When all four probes raise (an outage of the backup services), the
    handler still answers 200: both RPOs are [inf], the replication status is
    ERROR, the health score is 0, only the health score and the replication
    status are published, and with an SNS topic configured exactly four
    alerts go out. *)
Theorem handler_when_all_probes_fail
  (thr rto : Z) (topic : string) (e1 e2 e3 e4 : exn)
  (now_postgres now_redis : datetime)
  (Htopic : topic <> "") :
  handler {| rpo_threshold_minutes := Ok thr;
             rto_threshold_minutes := Ok rto;
             sns_topic_arn := Some topic;
             boto3_clients := Ok tt |}
          {| postgres_vault_listing := Raise e1;
             redis_snapshot_listing := Raise e2;
             primary_vault_listing := Raise e3;
             dr_vault_listing := Raise e4 |} now_postgres now_redis
  = {| statusCode := 200;
       body := MonitoringCompleted Inf Inf (failure_status "ERROR")
                 (0 * 0.4 + 0 * 0.3 + 0 * 0.3);
       published :=
         [ {| MetricName := "BackupHealthScore";
              Value := Fin (0 * 0.4 + 0 * 0.3 + 0 * 0.3) |};
           {| MetricName := "ReplicationStatus"; Value := Fin 0 |} ];
       alerted :=
         [ PostgresRpoExceeded Inf thr;
           RedisRpoExceeded Inf redis_rpo_threshold;
           ReplicationIssue "ERROR";
           LowHealthScore (0 * 0.4 + 0 * 0.3 + 0 * 0.3) ] |}.
Proof.
  unfold handler. cbn.
  destruct (String.eqb_spec topic "") as [E|E]; [contradiction|]. reflexivity.
Qed.

Lemma handler_when_all_probes_fail_witness :
  statusCode
    (handler {| rpo_threshold_minutes := Ok 60%Z;
                rto_threshold_minutes := Ok 240%Z;
                sns_topic_arn := Some "arn:aws:sns:topic";
                boto3_clients := Ok tt |}
             {| postgres_vault_listing := Raise (ClientError "down");
                redis_snapshot_listing := Raise (ClientError "down");
                primary_vault_listing := Raise (ClientError "down");
                dr_vault_listing := Raise (ClientError "down") |} 0 0) = 200%Z.
Proof.
  rewrite (handler_when_all_probes_fail 60 240 "arn:aws:sns:topic"
             (ClientError "down") (ClientError "down")
             (ClientError "down") (ClientError "down") 0 0);
    [reflexivity | discriminate].
Defined.

(** * Further properties of the testing framework *)

(** ** The test methods *)

(** X14. Each test method returns its [TestMetrics] without raising, and the
    result is PASSED exactly when all of its sub-checks are true: the
    measured RPO and RTO play no part, so a PostgreSQL or Redis test passes
    even when its RPO is the [timedelta.max] of a failed lookup.  The S3 test
    records neither RPO nor RTO, the failover test no RPO. *)
Theorem test_methods_pass_iff_all_checks
  (c1 c2 c3 c4 c5 : bool)
  (recovery_point_details : comp recovery_point) (snapshots_call : comp snapshots_response)
  (t_start t_rpo t_rto t_end : datetime) :
  exists m_pg m_redis m_s3 m_dr rpo_pg rpo_redis,
    test_postgresql_backup c1 c2 c3 c4 recovery_point_details
      t_start t_rpo t_rto t_end = Ok m_pg /\
    test_redis_backup c1 c2 c3 c4 snapshots_call t_start t_rpo t_rto t_end = Ok m_redis /\
    test_s3_backup c1 c2 c3 c4 c5 t_start t_end = Ok m_s3 /\
    test_disaster_recovery_failover c1 c2 c3 c4 t_start t_rto t_end = Ok m_dr /\
    (result m_pg = PASSED <-> c1 && c2 && c3 && c4 = true) /\
    (result m_redis = PASSED <-> c1 && c2 && c3 && c4 = true) /\
    (result m_s3 = PASSED <-> c1 && c2 && c3 && c4 && c5 = true) /\
    (result m_dr = PASSED <-> c1 && c2 && c3 && c4 = true) /\
    (forall m, In m [m_pg; m_redis; m_s3; m_dr] ->
       result m = PASSED \/ result m = FAILED) /\
    recovery_point_objective m_pg = Some rpo_pg /\
    ((exists e, recovery_point_details = Raise e) -> rpo_pg = timedelta_max) /\
    recovery_point_objective m_redis = Some rpo_redis /\
    ((exists e, snapshots_call = Raise e) -> rpo_redis = timedelta_max) /\
    recovery_time_objective m_pg = Some (t_rto - t_start)%Z /\
    recovery_time_objective m_redis = Some (t_rto - t_start)%Z /\
    recovery_time_objective m_dr = Some (t_rto - t_start)%Z /\
    recovery_point_objective m_s3 = None /\
    recovery_time_objective m_s3 = None /\
    recovery_point_objective m_dr = None.
Proof.
  assert (Hpg : exists d, _calculate_postgresql_rpo recovery_point_details t_rpo = Ok d /\
                          ((exists e, recovery_point_details = Raise e) -> d = timedelta_max)).
  { unfold _calculate_postgresql_rpo.
    destruct recovery_point_details as [rp|e]; cbn.
    - destruct (CreationDate rp); cbn; eexists; (split; [reflexivity|]);
        intros [e H]; discriminate H.
    - eexists. split; [reflexivity|]. reflexivity. }
  assert (Hrd : exists d, _calculate_redis_rpo snapshots_call t_rpo = Ok d /\
                          ((exists e, snapshots_call = Raise e) -> d = timedelta_max)).
  { unfold _calculate_redis_rpo.
    destruct snapshots_call as [[[[|s rest]|]]|e]; cbn;
      try (eexists; (split; [reflexivity|]); intros [e' H]; discriminate H).
    - destruct (SnapshotCreateTime s); cbn; eexists; (split; [reflexivity|]);
        intros [e H]; discriminate H.
    - eexists. split; reflexivity. }
  destruct Hpg as (dp & Hdp & Hdp'), Hrd as (dr & Hdr & Hdr').
  unfold test_postgresql_backup, test_redis_backup, test_s3_backup,
    test_disaster_recovery_failover.
  rewrite Hdp, Hdr. cbn [bind try_except].
  do 4 eexists. exists dp, dr.
  repeat (split; [reflexivity|]).
  cbn [result recovery_point_objective recovery_time_objective forallb].
  rewrite !andb_true_r.
  destruct c1, c2, c3, c4, c5; cbn;
    repeat split; auto; try discriminate;
    intros m Hm; repeat (destruct Hm as [<- | Hm]; [cbn; auto|]); contradiction.
Qed.

Lemma test_methods_pass_iff_all_checks_witness :
  exists m,
    test_postgresql_backup true true true true (Raise (ClientError "no recovery point"))
      0 10 20 30 = Ok m /\
    result m = PASSED /\
    recovery_point_objective m = Some timedelta_max.
Proof.
  destruct (test_methods_pass_iff_all_checks true true true true true
              (Raise (ClientError "no recovery point")) (snapshot_listing []) 0 10 20 30)
    as (m & m2 & m3 & m4 & d & d2 & Hm & _ & _ & _ & Hpass & _ & _ & _ & _ & Hrpo & Hmax & _).
  exists m. split; [exact Hm|]. split; [now apply Hpass|].
  rewrite Hrpo. f_equal. apply Hmax. eexists. reflexivity.
Defined.

(** ** The report *)

Lemma count_result_cons (r : TestResult) (m : TestMetrics) (l : list TestMetrics) :
  count_result r (m :: l)
  = ((if TestResult_eqb (result m) r then 1 else 0) + count_result r l)%nat.
Proof. unfold count_result. cbn. destruct (TestResult_eqb _ _); reflexivity. Qed.

(** X15. In the report summary [total_tests] is the sum of the passed, failed
    and skipped counts plus the number of TIMEOUT results, which the summary
    does not show: the three counts add up to the total exactly when no
    result is TIMEOUT. *)
Theorem report_counts_add_up (self : framework) :
  let r := summary (_generate_test_report self) in
  total_tests r
  = (passed r + failed r + skipped r + count_result TIMEOUT (test_results self))%nat.
Proof.
  cbn. induction (test_results self) as [|m l IH]; [reflexivity|].
  rewrite !count_result_cons. cbn [List.length]. rewrite IH.
  destruct (result m); cbn; lia.
Qed.

Lemma duration_values_app (f : TestMetrics -> option timedelta)
  (l1 l2 : list TestMetrics) :
  duration_values f (l1 ++ l2) = duration_values f l1 ++ duration_values f l2.
Proof.
  induction l1 as [|r l1 IH]; [reflexivity|]. cbn.
  destruct (minutes_if_truthy (f r)); cbn; now rewrite IH.
Qed.

(** X16. A result whose RPO is the zero duration is treated like a result
    without RPO: its report entry has no [rpo_minutes], and the maximum and
    the average RPO of the report are those of the run without it. *)
Theorem zero_rpo_dropped_from_report
  (env : string) (before after : list TestMetrics) (r : TestMetrics)
  (Hzero : recovery_point_objective r = Some 0%Z) :
  rpo_minutes (make_test_data r) = None /\
  max_rpo_minutes
    (analysis (_generate_test_report
                 {| environment := env; test_results := before ++ r :: after |}))
  = max_rpo_minutes
      (analysis (_generate_test_report
                   {| environment := env; test_results := before ++ after |})) /\
  avg_rpo_minutes
    (analysis (_generate_test_report
                 {| environment := env; test_results := before ++ r :: after |}))
  = avg_rpo_minutes
      (analysis (_generate_test_report
                   {| environment := env; test_results := before ++ after |})).
Proof.
  cbn. rewrite Hzero. cbn. split; [reflexivity|].
  rewrite !duration_values_app. cbn. rewrite Hzero. cbn. auto.
Qed.

Lemma zero_rpo_dropped_from_report_witness :
  avg_rpo_minutes
    (analysis (_generate_test_report
       {| environment := "staging";
          test_results :=
            [ {| test_name := "redis_backup_recovery";
                 start_time := 0; end_time := 1;
                 result := PASSED; details := Checks [];
                 recovery_point_objective := Some 0%Z;
                 recovery_time_objective := Some 1%Z |} ] |})) = None.
Proof.
  destruct (zero_rpo_dropped_from_report "staging" [] []
              {| test_name := "redis_backup_recovery";
                 start_time := 0; end_time := 1;
                 result := PASSED; details := Checks [];
                 recovery_point_objective := Some 0%Z;
                 recovery_time_objective := Some 1%Z |} eq_refl) as (_ & _ & H).
  exact H.
Defined.

Lemma pymax_ge_l (a b : Q) : a <= pymax a b.
Proof. rewrite pymax_Qmax. apply Q.le_max_l. Qed.

Lemma pymax_ge_r (a b : Q) : b <= pymax a b.
Proof. rewrite pymax_Qmax. apply Q.le_max_r. Qed.

Lemma fold_pymax_upper (l : list Q) :
  forall v, v <= fold_left pymax l v /\ forall q, In q l -> q <= fold_left pymax l v.
Proof.
  induction l as [|x l IH]; intros v; cbn.
  - split; [lra | contradiction].
  - destruct (IH (pymax v x)) as [Hv Hl]. split.
    + pose proof (pymax_ge_l v x). lra.
    + intros q [<- | Hq]; [|now apply Hl].
      pose proof (pymax_ge_r v x). lra.
Qed.

Lemma py_max_list_upper (values : list Q) (m : Q) :
  py_max_list values = Some m -> forall q, In q values -> q <= m.
Proof.
  destruct values as [|v rest]; cbn; [discriminate|].
  intros H. injection H as <-. intros q [<- | Hq].
  - exact (proj1 (fold_pymax_upper rest v)).
  - exact (proj2 (fold_pymax_upper rest v) q Hq).
Qed.

Lemma pymax_cases (a b : Q) : pymax a b = a \/ pymax a b = b.
Proof. unfold pymax. destruct (Qle_bool b a); auto. Qed.

Lemma fold_pymax_in (l : list Q) :
  forall v, fold_left pymax l v = v \/ In (fold_left pymax l v) l.
Proof.
  induction l as [|x l IH]; intros v; cbn [fold_left In]; [now left|].
  destruct (IH (pymax v x)) as [E|Hin]; [|right; now right].
  rewrite E. destruct (pymax_cases v x) as [E'|E']; rewrite E'.
  - now left.
  - right. now left.
Qed.

(** [max(values)] is one of the values. *)
Lemma py_max_list_in (values : list Q) (m : Q) :
  py_max_list values = Some m -> In m values.
Proof.
  destruct values as [|v rest]; cbn [py_max_list]; [discriminate|].
  intros H. injection H as <-.
  destruct (fold_pymax_in rest v) as [E|Hin]; [rewrite E; now left | now right].
Qed.

Lemma duration_values_in (f : TestMetrics -> option timedelta)
  (l : list TestMetrics) (r : TestMetrics) (q : Q) :
  In r l -> minutes_if_truthy (f r) = Some q -> In q (duration_values f l).
Proof.
  induction l as [|x l IH]; cbn; [contradiction|].
  intros [-> | Hr] Hq.
  - rewrite Hq. now left.
  - destruct (minutes_if_truthy (f x)); [right|]; now apply IH.
Qed.

Lemma duration_values_inv (f : TestMetrics -> option timedelta)
  (l : list TestMetrics) (q : Q) :
  In q (duration_values f l) ->
  exists r, In r l /\ minutes_if_truthy (f r) = Some q.
Proof.
  induction l as [|x l IH]; cbn [duration_values]; [contradiction|].
  destruct (minutes_if_truthy (f x)) as [q0|] eqn:E.
  - intros [<- | H].
    + exists x. split; [now left | exact E].
    + destruct (IH H) as (r & Hr & Hq). exists r. split; [now right | exact Hq].
  - intros H. destruct (IH H) as (r & Hr & Hq). exists r. split; [now right | exact Hq].
Qed.

(** X17. Whenever the report gives a maximum RPO (or RTO), that maximum is
    the [rpo_minutes] (or [rto_minutes]) of one of the report's entries, the
    value of every entry is at most the maximum, and an average is given as
    well; when it gives no maximum, it gives no average and no entry carries
    the field. *)
Theorem report_max_is_largest_entry (self : framework) :
  let rep := _generate_test_report self in
  let a := analysis rep in
  (forall m, max_rpo_minutes a = Some m ->
     (exists t, In t (tests rep) /\ rpo_minutes t = Some m) /\
     (forall t q, In t (tests rep) -> rpo_minutes t = Some q -> q <= m) /\
     exists avg, avg_rpo_minutes a = Some avg) /\
  (max_rpo_minutes a = None ->
     avg_rpo_minutes a = None /\
     forall t, In t (tests rep) -> rpo_minutes t = None) /\
  (forall m, max_rto_minutes a = Some m ->
     (exists t, In t (tests rep) /\ rto_minutes t = Some m) /\
     (forall t q, In t (tests rep) -> rto_minutes t = Some q -> q <= m) /\
     exists avg, avg_rto_minutes a = Some avg) /\
  (max_rto_minutes a = None ->
     avg_rto_minutes a = None /\
     forall t, In t (tests rep) -> rto_minutes t = None).
Proof.
  cbn zeta. cbn [_generate_test_report analysis tests max_rpo_minutes avg_rpo_minutes
                 max_rto_minutes avg_rto_minutes].
  assert (H : forall f (g : test_data -> option Q),
             (forall r, g (make_test_data r) = minutes_if_truthy (f r)) ->
             (forall m,
                py_max_list (duration_values f (test_results self)) = Some m ->
                (exists t, In t (map make_test_data (test_results self)) /\
                           g t = Some m) /\
                (forall t q, In t (map make_test_data (test_results self)) ->
                   g t = Some q -> q <= m) /\
                exists avg,
                  py_avg (duration_values f (test_results self)) = Some avg) /\
             (py_max_list (duration_values f (test_results self)) = None ->
                py_avg (duration_values f (test_results self)) = None /\
                forall t, In t (map make_test_data (test_results self)) ->
                  g t = None)).
  { intros f g Hg. split.
    - intros m Hm. split; [|split].
      + destruct (duration_values_inv f _ m (py_max_list_in _ m Hm)) as (r & Hr & Hq).
        exists (make_test_data r). split; [now apply in_map|].
        now rewrite Hg.
      + intros t q Hin Hq. apply in_map_iff in Hin as (r & <- & Hr).
        rewrite Hg in Hq. apply (py_max_list_upper _ m Hm).
        now apply (duration_values_in f _ r).
      + destruct (duration_values f (test_results self)); [discriminate|].
        eexists. reflexivity.
    - intros Hnone.
      destruct (duration_values f (test_results self)) as [|v rest] eqn:Ev;
        [|discriminate].
      split; [reflexivity|].
      intros t Hin. apply in_map_iff in Hin as (r & <- & Hr). rewrite Hg.
      destruct (minutes_if_truthy (f r)) as [q|] eqn:Eq; [|reflexivity].
      pose proof (duration_values_in f _ r q Hr Eq) as Hq.
      rewrite Ev in Hq. contradiction. }
  destruct (H recovery_point_objective rpo_minutes (fun _ => eq_refl)) as [H1 H2].
  destruct (H recovery_time_objective rto_minutes (fun _ => eq_refl)) as [H3 H4].
  split; [exact H1|]. split; [exact H2|]. split; [exact H3 | exact H4].
Qed.

Lemma report_max_is_largest_entry_witness :
  let self :=
    {| environment := "staging";
       test_results :=
         [ {| test_name := "a"; start_time := 0; end_time := 1;
              result := PASSED; details := Checks [];
              recovery_point_objective := Some 600000000%Z;
              recovery_time_objective := None |};
           {| test_name := "b"; start_time := 0; end_time := 1;
              result := PASSED; details := Checks [];
              recovery_point_objective := Some 1800000000%Z;
              recovery_time_objective := None |} ] |} in
  (exists t, In t (tests (_generate_test_report self)) /\
             rpo_minutes t = Some (total_minutes 1800000000)) /\
  avg_rto_minutes (analysis (_generate_test_report self)) = None.
Proof.
  intros self.
  destruct (report_max_is_largest_entry self) as (Hrpo & _ & _ & Hrto).
  destruct (Hrpo (total_minutes 1800000000) eq_refl) as (Hex & _ & _).
  split; [exact Hex | exact (proj1 (Hrto eq_refl))].
Defined.

(** ** Exit status and accumulated results *)

Lemma failed_tests_empty (t0 t1 : datetime)
  (tests : list (test_key * comp TestMetrics)) :
  existsb (fun t => fails (snd t)) tests = false ->
  failed_tests (map (recorded t0 t1) tests) = [].
Proof.
  induction tests as [|t rest IH]; cbn; [reflexivity|].
  intros H. apply orb_false_iff in H as [Ht Hrest].
  destruct t as [k [m|e]]; cbn in *; [|discriminate].
  rewrite Ht. now apply IH.
Qed.

(** X18. When no configured test fails or raises, [main] exits with status 0
    after recording one entry per configured test and sending a SUCCESS
    notification with a failed count of 0; when the framework cannot be
    constructed it exits with status 2 and runs nothing. *)
Theorem clean_run_exits_zero
  (env : string) (f : test_funcs) (t0 t1 : datetime)
  (Hclean : existsb (fun t => fails (snd t))
              (configured_tests {| environment := env; test_results := [] |} f) = false) :
  let configured := configured_tests {| environment := env; test_results := [] |} f in
  (exists out,
     main (Ok env) f t0 t1 = (0%Z, Some out) /\
     test_results (self_after out) = map (recorded t0 t1) configured /\
     failed (summary (generated_report out)) = 0%nat /\
     subject_tag (sent_notification out) = "SUCCESS" /\
     failed_test_names (sent_notification out) = []) /\
  (forall e, main (Raise e) f t0 t1 = (2%Z, None)).
Proof.
  intros configured. split; [|reflexivity].
  pose proof (run_tests_loop_test_results t0 t1 configured [] []) as Hl.
  pose proof (failed_tests_empty t0 t1 configured Hclean) as He.
  unfold main, run_all_tests.
  cbn [environment test_results]. fold configured.
  destruct (run_tests_loop t0 t1 configured ([], [])) as [res trs] eqn:E.
  assert (Htrs : trs = map (recorded t0 t1) configured).
  { change trs with (snd (res, trs)). rewrite <- E. exact Hl. }
  subst trs. cbn [self_after test_results]. rewrite He.
  eexists. split; [reflexivity|].
  cbn [self_after generated_report sent_notification _generate_test_report
       _send_notifications summary failed subject_tag failed_test_names test_results].
  unfold count_result. fold (failed_tests (map (recorded t0 t1) configured)).
  rewrite He. repeat split; reflexivity.
Qed.

Lemma clean_run_exits_zero_witness :
  exists out,
    main (Ok "staging")
      {| run_postgresql_backup :=
           test_postgresql_backup true true true true
             (Ok {| Status := Some "COMPLETED"; CreationDate := Some 0%Z |}) 10 20 30 40;
         run_redis_backup :=
           test_redis_backup true true true true (snapshot_listing []) 40 50 60 70;
         run_s3_backup := test_s3_backup true true true true true 70 80;
         run_disaster_recovery_failover :=
           test_disaster_recovery_failover false false false false 80 90 100 |}
      5 6 = (0%Z, Some out).
Proof.
  destruct (clean_run_exits_zero "staging"
      {| run_postgresql_backup :=
           test_postgresql_backup true true true true
             (Ok {| Status := Some "COMPLETED"; CreationDate := Some 0%Z |}) 10 20 30 40;
         run_redis_backup :=
           test_redis_backup true true true true (snapshot_listing []) 40 50 60 70;
         run_s3_backup := test_s3_backup true true true true true 70 80;
         run_disaster_recovery_failover :=
           test_disaster_recovery_failover false false false false 80 90 100 |}
      5 6) as [(out & Hmain & _) _]; [reflexivity|].
  exists out. exact Hmain.
Defined.

(** X19. [run_all_tests] appends to [self.test_results] and reports on the
    whole list: on an instance that already holds results the new entries
    come after the old ones, the report counts both, and an earlier FAILED
    result keeps the notification an ALERT whatever the new run does. *)
Theorem run_all_tests_accumulates
  (self : framework) (f : test_funcs) (t0 t1 : datetime) :
  exists out,
    run_all_tests self f t0 t1 = Ok out /\
    test_results (self_after out)
    = test_results self ++ map (recorded t0 t1) (configured_tests self f) /\
    total_tests (summary (generated_report out))
    = (List.length (test_results self)
       + List.length (configured_tests self f))%nat /\
    (failed_tests (test_results self) <> [] ->
     subject_tag (sent_notification out) = "ALERT").
Proof.
  pose proof (run_tests_loop_test_results t0 t1 (configured_tests self f) []
                (test_results self)) as Hl.
  unfold run_all_tests.
  destruct (run_tests_loop t0 t1 (configured_tests self f) ([], test_results self))
    as [res trs] eqn:E.
  assert (Htrs : trs = test_results self
                       ++ map (recorded t0 t1) (configured_tests self f)).
  { change trs with (snd (res, trs)). rewrite <- E. exact Hl. }
  subst trs. eexists. split; [reflexivity|].
  cbn [self_after generated_report sent_notification _generate_test_report
       _send_notifications summary total_tests subject_tag test_results].
  repeat split.
  - now rewrite length_app, length_map.
  - intros Hne. unfold failed_tests in *. rewrite filter_app.
    destruct (filter _ (test_results self)) as [|m ms]; [contradiction|].
    reflexivity.
Qed.

Lemma run_all_tests_accumulates_witness :
  exists out,
    run_all_tests
      {| environment := "staging";
         test_results := [ failed_with_error "s3_backup" 0 1 TypeError ] |}
      {| run_postgresql_backup :=
           test_postgresql_backup true true true true
             (Ok {| Status := Some "COMPLETED"; CreationDate := Some 0%Z |}) 10 20 30 40;
         run_redis_backup :=
           test_redis_backup true true true true (snapshot_listing []) 40 50 60 70;
         run_s3_backup := test_s3_backup true true true true true 70 80;
         run_disaster_recovery_failover :=
           test_disaster_recovery_failover true true true true 80 90 100 |}
      5 6 = Ok out /\
    subject_tag (sent_notification out) = "ALERT" /\
    total_tests (summary (generated_report out)) = 4%nat.
Proof.
  destruct (run_all_tests_accumulates
      {| environment := "staging";
         test_results := [ failed_with_error "s3_backup" 0 1 TypeError ] |}
      {| run_postgresql_backup :=
           test_postgresql_backup true true true true
             (Ok {| Status := Some "COMPLETED"; CreationDate := Some 0%Z |}) 10 20 30 40;
         run_redis_backup :=
           test_redis_backup true true true true (snapshot_listing []) 40 50 60 70;
         run_s3_backup := test_s3_backup true true true true true 70 80;
         run_disaster_recovery_failover :=
           test_disaster_recovery_failover true true true true 80 90 100 |}
      5 6) as (out & Hout & _ & Htotal & Halert).
  exists out. split; [exact Hout|]. split; [|exact Htotal].
  apply Halert. discriminate.
Defined.

(** ** The returned dict *)

Lemma test_key_eqb_eq (a b : test_key) : test_key_eqb a b = true <-> a = b.
Proof.
  destruct a as [x|x], b as [y|y]; cbn.
  - destruct x, y; cbn; split; intros H; try reflexivity; discriminate H.
  - split; discriminate.
  - split; discriminate.
  - rewrite String.eqb_eq. split; [now intros -> | now intros [= ->]].
Qed.

Lemma test_key_eqb_sym (a b : test_key) : test_key_eqb a b = test_key_eqb b a.
Proof.
  destruct (test_key_eqb a b) eqn:E1, (test_key_eqb b a) eqn:E2; auto.
  - apply test_key_eqb_eq in E1. subst.
    assert (test_key_eqb b b = true) by now apply test_key_eqb_eq. congruence.
  - apply test_key_eqb_eq in E2. subst.
    assert (test_key_eqb a a = true) by now apply test_key_eqb_eq. congruence.
Qed.

Lemma dict_set_has_key {V} (d : dict test_key V) (k k0 : test_key) (v : V) :
  existsb (fun kv => test_key_eqb (fst kv) k0) (dict_set d k v)
  = existsb (fun kv => test_key_eqb (fst kv) k0) d || test_key_eqb k k0.
Proof.
  induction d as [|[k' v'] rest IH]; cbn.
  - now rewrite orb_false_r.
  - destruct (test_key_eqb k' k) eqn:E; cbn.
    + apply test_key_eqb_eq in E. subst k'.
      destruct (test_key_eqb k k0); cbn; [reflexivity | now rewrite orb_false_r].
    + rewrite IH. now rewrite orb_assoc.
Qed.

(** X20. The [results] dict behaves as a dict: after [d[k] = v] a lookup of
    [k] gives [v], every other key keeps its value, and no key occurs
    twice if none did before. *)
Theorem dict_set_get (d : dict test_key TestMetrics) (k : test_key) (v : TestMetrics) :
  dict_get (dict_set d k v) k = Some v /\
  (forall k', k' <> k -> dict_get (dict_set d k v) k' = dict_get d k') /\
  (dict_keys_distinct d = true -> dict_keys_distinct (dict_set d k v) = true).
Proof.
  split; [|split].
  - induction d as [|[k' v'] rest IH]; cbn.
    + assert (E : test_key_eqb k k = true) by now apply test_key_eqb_eq.
      now rewrite E.
    + destruct (test_key_eqb k' k) eqn:E; cbn; rewrite E; auto.
  - intros k0 Hne. induction d as [|[k' v'] rest IH]; cbn.
    + destruct (test_key_eqb k k0) eqn:E; [|reflexivity].
      apply test_key_eqb_eq in E. congruence.
    + destruct (test_key_eqb k' k) eqn:E; cbn.
      * apply test_key_eqb_eq in E. subst k'.
        destruct (test_key_eqb k k0) eqn:E0; [|reflexivity].
        apply test_key_eqb_eq in E0. congruence.
      * now rewrite IH.
  - induction d as [|[k' v'] rest IH]; cbn; [reflexivity|].
    intros H. apply andb_true_iff in H as [Hk Hrest].
    destruct (test_key_eqb k' k) eqn:E; cbn.
    + now rewrite Hk, Hrest.
    + rewrite dict_set_has_key, (IH Hrest).
      apply negb_true_iff in Hk. rewrite Hk. cbn.
      rewrite test_key_eqb_sym, E. reflexivity.
Qed.

Lemma dict_set_get_witness :
  dict_get
    (dict_set [ (KBackup REDIS, failed_with_error "old" 0 1 TypeError) ]
       (KStr "disaster_recovery") (failed_with_error "new" 2 3 TypeError))
    (KBackup REDIS)
  = Some (failed_with_error "old" 0 1 TypeError).
Proof.
  destruct (dict_set_get [ (KBackup REDIS, failed_with_error "old" 0 1 TypeError) ]
              (KStr "disaster_recovery") (failed_with_error "new" 2 3 TypeError))
    as (_ & H & _).
  rewrite (H (KBackup REDIS)); [reflexivity | discriminate].
Defined.

(** ** Sub-checks on the backup vaults *)

Lemma max_by_creation_date_spec (rest : list Vault.recovery_point) :
  forall best best_date m,
    Vault.CreationDate best = Some best_date ->
    max_by_creation_date rest best best_date = Ok m ->
    In m (best :: rest) /\
    exists d,
      Vault.CreationDate m = Some d /\ (best_date <= d)%Z /\
      forall rp, In rp rest ->
        exists d', Vault.CreationDate rp = Some d' /\ (d' <= d)%Z.
Proof.
  induction rest as [|rp rest IH]; intros best bd m Hbest Hm; cbn in Hm.
  - injection Hm as <-. split; [now left|].
    exists bd. repeat split; auto; [lia | contradiction].
  - destruct (Vault.CreationDate rp) as [d1|] eqn:Erp; [|discriminate].
    cbn in Hm. destruct (Z.ltb_spec bd d1) as [Hlt|Hge].
    + destruct (IH rp d1 m Erp Hm) as (Hin & d & Hd & Hle & Hall).
      split; [destruct Hin as [<-|Hin]; cbn; auto|].
      exists d. repeat split; auto; [lia|].
      intros rp' [<-|Hin']; [exists d1; split; auto | now apply Hall].
    + destruct (IH best bd m Hbest Hm) as (Hin & d & Hd & Hle & Hall).
      split; [destruct Hin as [<-|Hin]; cbn; auto|].
      exists d. repeat split; auto.
      intros rp' [<-|Hin']; [exists d1; split; auto; lia | now apply Hall].
Qed.

(** X21. [_verify_latest_postgresql_backup] never raises, answers False when
    the listing call fails or lists nothing, and answers True only if the
    newest recovery point of the listing (every entry must carry a creation
    date) is COMPLETED and at most [rpo_threshold_minutes] old: a newer
    unfinished backup hides an older completed one. *)
Theorem verify_latest_postgresql_backup_sound
  (call : comp Vault.response) (now : datetime) (threshold : Z) :
  returns (_verify_latest_postgresql_backup call now threshold) /\
  ((exists e, call = Raise e) \/ call = Ok {| Vault.RecoveryPoints := Some [] |} ->
   _verify_latest_postgresql_backup call now threshold = Ok false) /\
  (_verify_latest_postgresql_backup call now threshold = Ok true ->
   exists rps rp d,
     call = Ok {| Vault.RecoveryPoints := Some rps |} /\
     In rp rps /\
     Vault.Status rp = Some "COMPLETED" /\
     Vault.CreationDate rp = Some d /\
     (now - d <= threshold * 60000000)%Z /\
     forall rp', In rp' rps ->
       exists d', Vault.CreationDate rp' = Some d' /\ (d' <= d)%Z).
Proof.
  split; [apply try_except_returns; intros _; now exists false|].
  split; [intros [[e ->] | ->]; reflexivity|].
  unfold _verify_latest_postgresql_backup.
  destruct call as [[[[|rp0 rest]|]]|e]; cbn; try discriminate.
  destruct (Vault.CreationDate rp0) as [d0|] eqn:E0; cbn; [|discriminate].
  destruct (max_by_creation_date rest rp0 d0) as [m|e] eqn:Em; cbn; [|discriminate].
  destruct (max_by_creation_date_spec rest rp0 d0 m E0 Em) as (Hin & d & Hd & Hle & Hall).
  destruct (Vault.Status m) as [st|] eqn:Est; cbn; [|discriminate].
  destruct (String.eqb_spec st "COMPLETED") as [->|Hst]; cbn; [|discriminate].
  rewrite Hd. cbn [getitem bind]. unfold timedelta_of_minutes.
  destruct ((-1439999998560 <=? threshold) && (threshold <=? 1439999999999))%Z;
    cbn [bind try_except]; [|discriminate].
  unfold timedelta_minutes.
  destruct (Z.ltb_spec (threshold * 60000000) (now - d)) as [Hold|Hfresh];
    cbn [bind try_except]; [discriminate|].
  intros _. exists (rp0 :: rest), m, d. repeat split; auto.
  intros rp' [<-|Hin']; [exists d0; split; auto | now apply Hall].
Qed.

Lemma verify_latest_postgresql_backup_sound_witness :
  let failed_older :=
    {| Vault.Status := Some "FAILED"; Vault.CreationDate := Some 1000000000%Z;
       Vault.RecoveryPointArn := None |} in
  let completed_newer :=
    {| Vault.Status := Some "COMPLETED"; Vault.CreationDate := Some 2000000000%Z;
       Vault.RecoveryPointArn := Some "arn:aws:backup:rp-2" |} in
  let call := Ok {| Vault.RecoveryPoints := Some [failed_older; completed_newer] |} in
  _verify_latest_postgresql_backup call 5000000000 60 = Ok true /\
  exists rp d,
    In rp [failed_older; completed_newer] /\
    Vault.Status rp = Some "COMPLETED" /\
    Vault.CreationDate rp = Some d /\
    (5000000000 - d <= 60 * 60000000)%Z /\
    (1000000000 <= d)%Z.
Proof.
  intros failed_older completed_newer call.
  split; [reflexivity|].
  destruct (verify_latest_postgresql_backup_sound call 5000000000 60)
    as (_ & _ & H).
  destruct (H eq_refl) as (rps & rp & d & Hcall & Hin & Hst & Hd & Hage & Hall).
  injection Hcall as <-.
  exists rp, d. repeat split; auto.
  destruct (Hall failed_older (or_introl eq_refl)) as (d' & Hd' & Hle).
  injection Hd' as <-. exact Hle.
Defined.

Lemma recent_backups_spec (rps : list Vault.recovery_point) (now : datetime) :
  (forallb has_creation_date rps = true ->
   recent_backups rps now = Ok (filter (is_recent now) rps)) /\
  (forallb has_creation_date rps = false ->
   exists e, recent_backups rps now = Raise e).
Proof.
  induction rps as [|rp rest [IHok IHbad]].
  - split; [reflexivity | discriminate].
  - assert (Hh : has_creation_date rp
                 = match Vault.CreationDate rp with Some _ => true | None => false end)
      by reflexivity.
    assert (Hr : is_recent now rp
                 = match Vault.CreationDate rp with
                   | Some d => (now - d <? timedelta_days 2)%Z
                   | None => false
                   end) by reflexivity.
    cbn [recent_backups forallb filter]. rewrite Hh, Hr.
    destruct (Vault.CreationDate rp) as [d|]; cbn [getitem bind andb].
    + split; intros H.
      * rewrite (IHok H). cbn [bind].
        destruct (now - d <? timedelta_days 2)%Z; reflexivity.
      * destruct (IHbad H) as [e ->]. cbn [bind]. eauto.
    + split; [discriminate | eauto].
Qed.

(** X22. On a non-empty DR listing [_verify_postgresql_cross_region_backup]
    answers True exactly when every listed recovery point carries a creation
    date and at least one of them is younger than two days; one entry
    without a date makes it answer False even if a recent backup is
    listed. *)
Theorem verify_cross_region_backup_iff
  (rps : list Vault.recovery_point) (now : datetime) :
  _verify_postgresql_cross_region_backup
    (Ok {| Vault.RecoveryPoints := Some rps |}) now = Ok true <->
  forallb has_creation_date rps = true /\ existsb (is_recent now) rps = true.
Proof.
  unfold _verify_postgresql_cross_region_backup. cbn [bind getitem Vault.RecoveryPoints].
  destruct rps as [|rp rest]; [cbn; split; [discriminate | intros [_ H]; discriminate H]|].
  destruct (recent_backups_spec (rp :: rest) now) as [Hok Hbad].
  destruct (forallb has_creation_date (rp :: rest)) eqn:Ewf.
  - rewrite (Hok eq_refl). cbn [bind try_except].
    assert (Hex : forall l, existsb (is_recent now) l = true <->
                            filter (is_recent now) l <> []).
    { induction l as [|x l IH]; cbn; [split; [discriminate | contradiction]|].
      destruct (is_recent now x); cbn; [split; [discriminate | reflexivity] | exact IH]. }
    split.
    + intros H. split; [reflexivity|]. apply Hex. intros E. rewrite E in H. discriminate H.
    + intros [_ H]. apply Hex in H.
      destruct (filter (is_recent now) (rp :: rest)); [contradiction | reflexivity].
  - destruct (Hbad eq_refl) as [e ->]. cbn.
    split; [discriminate | intros [H _]; discriminate H].
Qed.

Lemma verify_cross_region_backup_iff_witness :
  _verify_postgresql_cross_region_backup
    (Ok {| Vault.RecoveryPoints :=
             Some [ {| Vault.Status := Some "EXPIRED";
                       Vault.CreationDate := Some 0%Z;
                       Vault.RecoveryPointArn := None |};
                    {| Vault.Status := None;
                       Vault.CreationDate := Some 900000000000%Z;
                       Vault.RecoveryPointArn := None |} ] |})
    1000000000000 = Ok true.
Proof.
  apply (verify_cross_region_backup_iff
           [ {| Vault.Status := Some "EXPIRED";
                Vault.CreationDate := Some 0%Z;
                Vault.RecoveryPointArn := None |};
             {| Vault.Status := None;
                Vault.CreationDate := Some 900000000000%Z;
                Vault.RecoveryPointArn := None |} ] 1000000000000).
  split; reflexivity.
Defined.

(** X23. [_verify_data_synchronization] answers True outside production
    without looking at any backup; in production, with a dated first
    recovery point in both vaults, it answers True exactly when the DR backup
    is at most 24 hours newer than the primary one -- a DR backup older than
    the primary one passes -- and False when a vault lists nothing or a
    listing call raises. *)
Theorem verify_data_synchronization_cases
  (env : string) (primary_call dr_call : comp Vault.response) :
  (env <> "production" ->
   _verify_data_synchronization env primary_call dr_call = Ok true) /\
  (forall p0 ps d0 ds pt dt,
     env = "production" ->
     primary_call = Ok {| Vault.RecoveryPoints := Some (p0 :: ps) |} ->
     dr_call = Ok {| Vault.RecoveryPoints := Some (d0 :: ds) |} ->
     Vault.CreationDate p0 = Some pt ->
     Vault.CreationDate d0 = Some dt ->
     (_verify_data_synchronization env primary_call dr_call = Ok true <->
      (dt - pt <= 86400000000)%Z) /\
     returns (_verify_data_synchronization env primary_call dr_call)) /\
  (env = "production" ->
   (exists e, primary_call = Raise e) \/ (exists e, dr_call = Raise e) \/
   primary_call = Ok {| Vault.RecoveryPoints := Some [] |} \/
   dr_call = Ok {| Vault.RecoveryPoints := Some [] |} ->
   _verify_data_synchronization env primary_call dr_call = Ok false).
Proof.
  unfold _verify_data_synchronization. split; [|split].
  - intros Hne. destruct (String.eqb_spec env "production"); [contradiction|reflexivity].
  - intros p0 ps d0 ds pt dt -> -> -> Hp Hd. cbn. rewrite Hp, Hd. cbn.
    destruct (Z.ltb_spec 86400000000 (dt - pt)) as [Hlt|Hge]; cbn.
    + split; [split; [discriminate | lia] | now exists false].
    + split; [split; [lia | reflexivity] | now exists true].
  - intros -> [[e ->] | [[e ->] | [-> | ->]]].
    + reflexivity.
    + destruct primary_call; reflexivity.
    + destruct dr_call; reflexivity.
    + destruct primary_call as [[[[|p ps]|]]|e]; reflexivity.
Qed.

Lemma verify_data_synchronization_cases_witness :
  _verify_data_synchronization "production"
    (Ok {| Vault.RecoveryPoints :=
             Some [ {| Vault.Status := None; Vault.CreationDate := Some 5000%Z;
                       Vault.RecoveryPointArn := None |} ] |})
    (Ok {| Vault.RecoveryPoints :=
             Some [ {| Vault.Status := None; Vault.CreationDate := Some 0%Z;
                       Vault.RecoveryPointArn := None |} ] |}) = Ok true.
Proof.
  destruct (verify_data_synchronization_cases "production"
    (Ok {| Vault.RecoveryPoints :=
             Some [ {| Vault.Status := None; Vault.CreationDate := Some 5000%Z;
                       Vault.RecoveryPointArn := None |} ] |})
    (Ok {| Vault.RecoveryPoints :=
             Some [ {| Vault.Status := None; Vault.CreationDate := Some 0%Z;
                       Vault.RecoveryPointArn := None |} ] |})) as (_ & H & _).
  destruct (H _ _ _ _ 5000%Z 0%Z eq_refl eq_refl eq_refl eq_refl eq_refl) as [Hiff _].
  apply Hiff. lia.
Defined.
